(** * serializablecallable: a shallow embedding of [serializablecallable/base.py]

    The module turns a Python callable into a record
    [(name, source, modules)] and back.  Every function of [base.py] is
    embedded below as a computation in a state-and-exception monad over an
    explicit interpreter state: the objects with their attributes, the
    dictionaries the module builds and passes around, the modules that can be
    imported, and the value of [builtins.__import__]. *)

From Stdlib Require Import ZArith Ascii String List Lia.
From stdpp Require Import base option gmap strings list fin_maps fin_sets.

Local Open Scope string_scope.
Local Open Scope list_scope.

(** ** Values and objects *)

(** Identities of heap objects and of dictionaries. *)
Abbreviation loc := positive.

(** What a Python variable can hold here: [None], a string, or a reference to
    an object of the store (function, module, partial, mock, ...).  Two
    references are equal when they are the same object, which is how
    functions, partials, modules and mocks compare and hash. *)
Inductive value : Type :=
  | VNone
  | VStr (s : string)
  | VObj (l : loc).

#[global] Instance value_eq_dec : EqDecision value.
Proof. solve_decision. Defined.

#[global] Instance value_countable : Countable value.
Proof.
  refine (inj_countable'
    (fun v => match v with
              | VNone => inl tt
              | VStr s => inr (inl s)
              | VObj l => inr (inr l)
              end)
    (fun x => match x with
              | inl _ => VNone
              | inr (inl s) => VStr s
              | inr (inr l) => VObj l
              end) _).
  intros []; reflexivity.
Defined.

(** The exceptions that [base.py] and the library calls it makes can raise.
    [UserError] stands for whatever executed or called user code raises;
    [DanglingReference] is not a Python exception: it is the answer of the
    model to a reference that is not in the store, which no Python program
    can hold. *)
Inductive exn : Type :=
  | AttributeError (attr : string)
  | KeyError (key : value)
  | ValueError (msg : string)
  | ImportError (name : string)
  | IndexError
  | TypeError
  | NameError (name : string)
  | AssertionError
  | OSError
  | UserError (tag : nat)
  | DanglingReference.

#[global] Instance exn_eq_dec : EqDecision exn.
Proof. solve_decision. Defined.

(** The type of an object, as far as [base.py] looks at it: [callable(o)],
    [isinstance(o, Hashable)], [isinstance(o, partial)], and whether
    attributes can be set. *)
Inductive pytype : Type :=
  | TFunction                       (* def or lambda *)
  | TBuiltin                        (* builtin function: no settable attributes *)
  | TPartial                        (* functools.partial *)
  | TModule
  | TMagicMock
  | TOther (is_callable is_hashable : bool).

#[global] Instance pytype_eq_dec : EqDecision pytype.
Proof. solve_decision. Defined.

Record object : Type := Object {
  o_type : pytype;
  (** what [getattr] finds on the object, and [inspect.getmembers] lists *)
  o_attrs : gmap string value;
  (** the text [inspect.getsource] retrieves, when there is one *)
  o_source : option string;
  (** [len(getargspec(o).args)], when [getargspec] accepts the object *)
  o_nargs : option nat;
}.

(** The objects that can sit in [builtins.__import__] during
    [test_callable]. *)
Inductive import_fn : Type :=
  | RealImport
    (** the interpreter's own [__import__] *)
  | ImportMock (orig_import : import_fn)
    (** the closure [import_mock] of [test_callable], which captured
        [orig_import] *)
  | PatchedMock (side_effect : import_fn)
    (** the [MagicMock(side_effect=...)] that [patch] installs *)
  | ForeignImport (tag : nat).
    (** any other hook, installed by someone else *)

#[global] Instance import_fn_eq_dec : EqDecision import_fn.
Proof. solve_decision. Defined.

(** ** The interpreter state *)

Record world : Type := World {
  (** the objects, by identity *)
  objs : gmap loc object;
  (** the dictionaries [base.py] creates and hands around (namespaces),
      by identity *)
  dicts : gmap loc (gmap string value);
  (** what importing a module by name finds *)
  loadable : gmap string value;
  (** the current value of [builtins.__import__] ([__builtin__.__import__]
      in Python 2) *)
  builtins_import : import_fn;
}.

Definition set_objs (f : gmap loc object -> gmap loc object) (w : world) : world :=
  {| objs := f (objs w); dicts := dicts w; loadable := loadable w;
     builtins_import := builtins_import w |}.

Definition set_dicts
    (f : gmap loc (gmap string value) -> gmap loc (gmap string value))
    (w : world) : world :=
  {| objs := objs w; dicts := f (dicts w); loadable := loadable w;
     builtins_import := builtins_import w |}.

Definition set_builtins_import (h : import_fn) (w : world) : world :=
  {| objs := objs w; dicts := dicts w; loadable := loadable w;
     builtins_import := h |}.

(** ** The monad: state passing with exceptions

    An exception keeps the state reached when it was raised. *)

Inductive result (A : Type) : Type :=
  | Ok (a : A)
  | Raise (e : exn).
Arguments Ok {A} a.
Arguments Raise {A} e.

Definition M (A : Type) : Type := world -> result A * world.

Definition ret {A} (a : A) : M A := fun w => (Ok a, w).

Definition raise {A} (e : exn) : M A := fun w => (Raise e, w).

Definition bind {A B} (m : M A) (k : A -> M B) : M B :=
  fun w =>
    match m w with
    | (Ok a, w') => k a w'
    | (Raise e, w') => (Raise e, w')
    end.

Declare Scope py_scope.
Delimit Scope py_scope with py.
Notation "x <- m ;; k" := (bind m (fun x => k))
  (at level 100, m at next level, right associativity) : py_scope.
Notation "m ;;; k" := (bind m (fun _ => k))
  (at level 100, right associativity) : py_scope.
Local Open Scope py_scope.

Definition get_world : M world := fun w => (Ok w, w).

(** A list comprehension [[f(x) for x in xs]]. *)
Fixpoint mapM {A B} (f : A -> M B) (xs : list A) : M (list B) :=
  match xs with
  | [] => ret []
  | x :: xs' => y <- f x ;; ys <- mapM f xs' ;; ret (y :: ys)
  end.

(** A loop [for x in xs: body(x)]. *)
Fixpoint forM_ {A} (xs : list A) (body : A -> M unit) : M unit :=
  match xs with
  | [] => ret tt
  | x :: xs' => body x ;;; forM_ xs' body
  end.

(** A loop that threads an accumulator. *)
Fixpoint foldM {A B} (f : B -> A -> M B) (acc : B) (xs : list A) : M B :=
  match xs with
  | [] => ret acc
  | x :: xs' => acc' <- f acc x ;; foldM f acc' xs'
  end.

(** ** Text: the [str] methods that [base.py] calls *)

(** [s[k:]] for [k >= 0], by characters. *)
Fixpoint string_drop (k : nat) (s : string) : string :=
  match k, s with
  | O, _ => s
  | S _, EmptyString => EmptyString
  | S k', String _ s' => string_drop k' s'
  end.

Fixpoint string_take (k : nat) (s : string) : string :=
  match k, s with
  | O, _ => EmptyString
  | S _, EmptyString => EmptyString
  | S k', String c s' => String c (string_take k' s')
  end.

(** [len(s)] is a Python integer. *)
Definition len (s : string) : Z := Z.of_nat (String.length s).

(** The slice [s[k:]] for any integer [k]: a negative [k] counts from the
    end, and an index outside the string is clamped. *)
Definition slice_from (s : string) (k : Z) : string :=
  let start := if (k <? 0)%Z then Z.max 0 (len s + k) else k in
  string_drop (Z.to_nat start) s.

(** [s.startswith(p)]. *)
Definition startswith (s p : string) : bool := String.prefix p s.

(** [s.endswith(p)]. *)
Definition endswith (s p : string) : bool :=
  (String.length p <=? String.length s)%nat
  && String.eqb (string_drop (String.length s - String.length p) s) p.

(** [sep.join(parts)]. *)
Definition join (sep : string) (parts : list string) : string :=
  String.concat sep parts.

Definition LF : ascii := ascii_of_nat 10.
Definition CR : ascii := ascii_of_nat 13.

(** Python 2 [str] is a byte string: [isspace] is the C locale's, and
    [splitlines] breaks at LF, CR and CR LF only. *)
Definition isspace_bytes (c : ascii) : bool :=
  let n := nat_of_ascii c in
  ((9 <=? n) && (n <=? 13) || (n =? 32))%nat.

Definition islinebreak_bytes (c : ascii) : bool :=
  let n := nat_of_ascii c in
  ((n =? 10) || (n =? 13))%nat.

(** Python 3 [str] is Unicode text; a character here is a code point below
    256.  The separators FS, GS, RS, US, NEL and the no-break space are
    white space too, and VT, FF, FS, GS, RS and NEL break lines. *)
Definition isspace_unicode (c : ascii) : bool :=
  let n := nat_of_ascii c in
  ((9 <=? n) && (n <=? 13) || (28 <=? n) && (n <=? 32)
   || (n =? 133) || (n =? 160))%nat.

Definition islinebreak_unicode (c : ascii) : bool :=
  let n := nat_of_ascii c in
  ((10 <=? n) && (n <=? 13) || (28 <=? n) && (n <=? 30) || (n =? 133))%nat.

(** ** The embedding of [base.py] *)

Section Embedding.

(** [sys.version_info.major] of the running interpreter. *)
Variable version_major : Z.

(** The members of the values that are not in the store: what [getattr] and
    [inspect.getmembers] find on [None] and on a string. *)
Variable builtin_members : value -> gmap string value.

(** What [exec(source, globals)] does when [globals] is the dictionary at the
    given reference: any change of the state, and possibly an exception. *)
Variable exec_sem : string -> loc -> M unit.

(** What calling an object with a list of positional arguments does. *)
Variable call_sem : value -> list value -> M value.

(** What calling a foreign import hook does. *)
Variable foreign_import : nat -> string -> M value.

(** [is_py2] and [is_py3], lines 15-16. *)
Definition is_py2 : bool := (version_major =? 2)%Z.
Definition is_py3 : bool := (version_major =? 3)%Z.

(** *** Text of the running version *)

Definition isspace (c : ascii) : bool :=
  if is_py2 then isspace_bytes c else isspace_unicode c.

Definition islinebreak (c : ascii) : bool :=
  if is_py2 then islinebreak_bytes c else islinebreak_unicode c.

(** [s.lstrip()]: the string without its leading white space. *)
Fixpoint lstrip (s : string) : string :=
  match s with
  | EmptyString => EmptyString
  | String c s' => if isspace c then lstrip s' else s
  end.

(** [s.splitlines()]: the lines of [s] without their line breaks; CR LF is
    one break, and a break at the very end opens no further line. *)
Fixpoint splitlines (s : string) : list string :=
  match s with
  | EmptyString => []
  | String c s' =>
      if islinebreak c then
        EmptyString ::
          match s' with
          | String c' s'' =>
              if Ascii.eqb c CR && Ascii.eqb c' LF then splitlines s''
              else splitlines s'
          | EmptyString => []
          end
      else
        match splitlines s' with
        | [] => [String c EmptyString]
        | line :: lines => String c line :: lines
        end
  end.

(** *** Objects: attributes, types, allocation *)

Definition dunder (k : string) : bool :=
  startswith k "__" && endswith k "__".

Definition mock_object : object :=
  {| o_type := TMagicMock; o_attrs := ∅; o_source := None; o_nargs := None |}.

Definition with_attr (a : string) (x : value) (o : object) : object :=
  {| o_type := o_type o; o_attrs := <[a := x]> (o_attrs o);
     o_source := o_source o; o_nargs := o_nargs o |}.

(** [MagicMock()]: a new mock object. *)
Definition MagicMock : M value :=
  fun w =>
    let l := fresh (dom (objs w)) in
    (Ok (VObj l), set_objs (insert l mock_object) w).

(** [getattr(v, a)].  A mock invents a child mock for every name it does not
    have yet, except for names with double underscores on both sides. *)
Definition py_getattr (v : value) (a : string) : M value :=
  fun w =>
    match v with
    | VObj l =>
        match objs w !! l with
        | None => (Raise DanglingReference, w)
        | Some o =>
            match o_attrs o !! a with
            | Some x => (Ok x, w)
            | None =>
                match o_type o with
                | TMagicMock =>
                    if dunder a then (Raise (AttributeError a), w)
                    else
                      match MagicMock w with
                      | (Ok child, w') =>
                          (Ok child, set_objs (insert l (with_attr a child o)) w')
                      | (Raise e, w') => (Raise e, w')
                      end
                | _ => (Raise (AttributeError a), w)
                end
            end
        end
    | _ =>
        match builtin_members v !! a with
        | Some x => (Ok x, w)
        | None => (Raise (AttributeError a), w)
        end
    end.

(** [hasattr(v, a)]: [getattr] with [AttributeError] turned into [False]. *)
Definition py_hasattr (v : value) (a : string) : M bool :=
  fun w =>
    match py_getattr v a w with
    | (Ok _, w') => (Ok true, w')
    | (Raise (AttributeError _), w') => (Ok false, w')
    | (Raise e, w') => (Raise e, w')
    end.

(** [v.a = x]. *)
Definition py_setattr (v : value) (a : string) (x : value) : M unit :=
  fun w =>
    match v with
    | VObj l =>
        match objs w !! l with
        | None => (Raise DanglingReference, w)
        | Some o =>
            match o_type o with
            | TBuiltin => (Raise (AttributeError a), w)
            | _ => (Ok tt, set_objs (insert l (with_attr a x o)) w)
            end
        end
    | _ => (Raise (AttributeError a), w)
    end.

Definition type_callable (t : pytype) : bool :=
  match t with
  | TFunction | TBuiltin | TPartial | TMagicMock => true
  | TModule => false
  | TOther c _ => c
  end.

Definition type_hashable (t : pytype) : bool :=
  match t with
  | TOther _ h => h
  | _ => true
  end.

(** [callable(v)] in state [w]. *)
Definition py_callable (w : world) (v : value) : bool :=
  match v with
  | VObj l =>
      match objs w !! l with
      | Some o => type_callable (o_type o)
      | None => false
      end
  | _ => false
  end.

(** [isinstance(v, Hashable)] in state [w]. *)
Definition py_hashable (w : world) (v : value) : bool :=
  match v with
  | VObj l =>
      match objs w !! l with
      | Some o => type_hashable (o_type o)
      | None => false
      end
  | _ => true
  end.

(** [isinstance(v, partial)] in state [w]. *)
Definition is_partial (w : world) (v : value) : bool :=
  match v with
  | VObj l =>
      match objs w !! l with
      | Some o => bool_decide (o_type o = TPartial)
      | None => false
      end
  | _ => false
  end.

(** [inspect.getmembers(v)]: the (name, value) pairs of the members of [v].
    Python sorts them by name; every caller turns the list into a dict at
    once, so the order is not kept here. *)
Definition inspect_getmembers (v : value) : M (list (string * value)) :=
  fun w =>
    match v with
    | VObj l =>
        match objs w !! l with
        | Some o => (Ok (map_to_list (o_attrs o)), w)
        | None => (Raise DanglingReference, w)
        end
    | _ => (Ok (map_to_list (builtin_members v)), w)
    end.

(** [inspect.getsource(c)]. *)
Definition inspect_getsource (c : value) : M string :=
  fun w =>
    match c with
    | VObj l =>
        match objs w !! l with
        | Some o =>
            match o_source o with
            | Some s => (Ok s, w)
            | None => (Raise OSError, w)
            end
        | None => (Raise DanglingReference, w)
        end
    | _ => (Raise TypeError, w)
    end.

(** [len(getargspec(c).args)]. *)
Definition getargspec_args (c : value) : M nat :=
  fun w =>
    match c with
    | VObj l =>
        match objs w !! l with
        | Some o =>
            match o_nargs o with
            | Some n => (Ok n, w)
            | None => (Raise TypeError, w)
            end
        | None => (Raise DanglingReference, w)
        end
    | _ => (Raise TypeError, w)
    end.

(** *** Dictionaries with string keys, by reference *)

(** A new dictionary with the given content. *)
Definition dict_new (d : gmap string value) : M loc :=
  fun w =>
    let r := fresh (dom (dicts w)) in
    (Ok r, set_dicts (insert r d) w).

(** The content of the dictionary at [r]. *)
Definition dict_items (r : loc) : M (gmap string value) :=
  fun w =>
    match dicts w !! r with
    | Some d => (Ok d, w)
    | None => (Raise DanglingReference, w)
    end.

(** [dict(pairs)]: later pairs overwrite earlier ones. *)
Definition py_dict (pairs : list (string * value)) : M loc :=
  dict_new (foldl (fun d p => <[p.1 := p.2]> d) ∅ pairs).

(** [r.update(other)]: the bindings of [other] overwrite those of [r]. *)
Definition dict_update (r other : loc) : M unit :=
  new <- dict_items other ;;
  old <- dict_items r ;;
  fun w => (Ok tt, set_dicts (insert r (new ∪ old)) w).

(** [r.copy()]. *)
Definition dict_copy (r : loc) : M loc :=
  d <- dict_items r ;; dict_new d.

(** [r[key]].  The keys of these dictionaries are strings, so any other
    hashable key is missing. *)
Definition dict_getitem (r : loc) (key : value) : M value :=
  d <- dict_items r ;;
  w <- get_world ;;
  if negb (py_hashable w key) then raise TypeError
  else
    match key with
    | VStr k =>
        match d !! k with
        | Some v => ret v
        | None => raise (KeyError key)
        end
    | _ => raise (KeyError key)
    end.

(** [lines[i]] on a list. *)
Definition list_getitem {A} (xs : list A) (i : nat) : M A :=
  match xs !! i with
  | Some x => ret x
  | None => raise IndexError
  end.

(** *** Importing *)

(** [importlib.import_module(m)]: the module of that name, when there is
    one. *)
Definition import_module (m : value) : M value :=
  fun w =>
    match m with
    | VStr s =>
        match loadable w !! s with
        | Some md => (Ok md, w)
        | None => (Raise (ImportError s), w)
        end
    | _ => (Raise TypeError, w)
    end.

Definition get_builtins_import : M import_fn :=
  fun w => (Ok (builtins_import w), w).

Definition put_builtins_import (h : import_fn) : M unit :=
  fun w => (Ok tt, set_builtins_import h w).

(** Calling an import hook with a module name.  [ImportMock orig_import] is
    the closure [import_mock] of [test_callable], lines 51-63; a mock with a
    side effect calls the side effect and returns what it returns. *)
Fixpoint call_import (f : import_fn) (name : string) : M value :=
  match f with
  | RealImport => import_module (VStr name)
  | ImportMock orig_import =>
      put_builtins_import orig_import ;;;
      call_import orig_import name ;;;
      put_builtins_import (ImportMock orig_import) ;;;
      MagicMock
  | PatchedMock side_effect => call_import side_effect name
  | ForeignImport tag => foreign_import tag name
  end.

(** What an [import name] statement does: it calls whatever
    [builtins.__import__] holds at that moment. *)
Definition py_import (name : string) : M value :=
  h <- get_builtins_import ;; call_import h name.

(** [with patch(target, side_effect=f): body], for a [target] that names
    [__import__] of the builtins module: entering saves the current hook and
    installs a mock with that side effect; leaving puts the saved hook back,
    whether [body] returned or raised. *)
Definition with_patch {A} (target : string) (side_effect : import_fn)
    (body : M A) : M A :=
  fun w =>
    let original := builtins_import w in
    let '(r, w') := body (set_builtins_import (PatchedMock side_effect) w) in
    (r, set_builtins_import original w').

(** [assert b]. *)
Definition py_assert (b : bool) : M unit :=
  if b then ret tt else raise AssertionError.

(** [exec(source, namespace)]. *)
Definition py_exec (source : value) (namespace : loc) : M unit :=
  match source with
  | VStr s => exec_sem s namespace
  | _ => raise TypeError
  end.

(** *** The functions of [base.py] *)

(** [module_to_str], lines 128-129. *)
Definition module_to_str (module : value) : M value :=
  py_getattr module "__name__".

(** [str_to_module], lines 124-125. *)
Definition str_to_module (module_str : value) : M value :=
  import_module module_str.

(** [namespace_for_module], lines 132-133. *)
Definition namespace_for_module (module : value) : M loc :=
  members <- inspect_getmembers module ;;
  py_dict members.

(** [namespace_for_modules], lines 136-140. *)
Definition namespace_for_modules (modules : list value) : M loc :=
  namespace <- dict_new ∅ ;;
  forM_ modules (fun m =>
    d <- namespace_for_module m ;;
    dict_update namespace d) ;;;
  ret namespace.

(** [extract_source], lines 101-107. *)
Definition extract_source (c : value) : M string :=
  source <- inspect_getsource c ;;
  let lines := splitlines source in
  l <- list_getitem lines 0 ;;
  let leading_space := (len l - len (lstrip l))%Z in
  ret (join (String LF EmptyString)
            (map (fun l => slice_from l leading_space) lines)).

(** [safe_exec], lines 143-152. *)
Definition safe_exec (source : value) (namespace : loc) (name : value)
    : M value :=
  namespace <- dict_copy namespace ;;
  py_exec source namespace ;;;
  f <- dict_getitem namespace name ;;
  py_setattr f "h5_source" source ;;;
  ret f.

(** [deserialize_callable_in_namespace], lines 115-121. *)
Definition deserialize_callable_in_namespace
    (name source : value) (namespace : loc) : M value :=
  if bool_decide (source = VNone) then
    dict_getitem namespace name
  else
    safe_exec source namespace name.

(** [deserialize_callable], lines 110-112. *)
Definition deserialize_callable (name source : value) (modules : list value)
    : M value :=
  ms <- mapM str_to_module modules ;;
  namespace <- namespace_for_modules ms ;;
  deserialize_callable_in_namespace name source namespace.

(** [SerializedCallable], lines 12-13.  The fields hold whatever the
    attributes they are read from hold, so they are values. *)
Record SerializedCallable : Type := mkSerializedCallable {
  name : value;
  source : value;
  modules : list value;
}.

(** The dict comprehension of line 76: the entries of the namespace whose
    value is callable and hashable. *)
Definition name_to_callable_of (w : world) (namespace : gmap string value)
    : gmap string value :=
  filter (fun p => py_callable w p.2 && py_hashable w p.2 = true) namespace.

(** The dict comprehension of line 80: the inverse mapping.  When a value is
    bound to several names, the name met last in the iteration stays. *)
Definition callable_to_name_of (name_to_callable : gmap string value)
    : gmap value string :=
  foldl (fun d p => <[p.2 := p.1]> d) ∅ (map_to_list name_to_callable).

(** [d.get(c)] on a dictionary keyed by objects: the key must be hashable. *)
Definition dict_get (d : gmap value string) (c : value) : M (option string) :=
  w <- get_world ;;
  if py_hashable w c then ret (d !! c) else raise TypeError.

(** [serialize_callable], lines 74-98. *)
Definition serialize_callable (c : value) (modules : list value)
    : M SerializedCallable :=
  namespace <- namespace_for_modules modules ;;
  items <- dict_items namespace ;;
  w <- get_world ;;
  let name_to_callable := name_to_callable_of w items in
  module_names <- mapM module_to_str modules ;;
  let callable_to_name := callable_to_name_of name_to_callable in
  name <- dict_get callable_to_name c ;;
  match name with
  | Some name =>
      ret (mkSerializedCallable (VStr name) VNone module_names)
  | None =>
      tagged <- py_hasattr c "h5_source" ;;
      if tagged : bool then
        c_name <- py_getattr c "__name__" ;;
        c_source <- py_getattr c "source" ;;
        ret (mkSerializedCallable c_name c_source module_names)
      else
        w <- get_world ;;
        if is_partial w c then
          raise (ValueError "Partial function serialization is not yet supported")
        else
          source <- extract_source c ;;
          c_name <- py_getattr c "__name__" ;;
          ret (mkSerializedCallable c_name (VStr source) module_names)
  end.

(** [test_callable], lines 37-71. *)
Definition test_callable (c : value) : M unit :=
  nargs <- getargspec_args c ;;
  args <- mapM (fun _ => MagicMock) (seq 0 nargs) ;;
  let import_string :=
    if is_py2 then Some "__builtin__.__import__"
    else if is_py3 then Some "builtins.__import__"
    else None in
  match import_string with
  | None => raise (NameError "__builtin__")
  | Some import_string =>
      orig_import <- get_builtins_import ;;
      let import_mock := ImportMock orig_import in
      with_patch import_string import_mock (call_sem c args) ;;;
      now <- get_builtins_import ;;
      py_assert (bool_decide (now = orig_import))
  end.

(** The dict comprehension of lines 27-28: a new mock for every key of the
    namespace that is not a double-underscore name. *)
Definition mock_namespace_of (namespace : loc) : M loc :=
  items <- dict_items namespace ;;
  mocks <- foldM (fun (d : gmap string value) (k : string) =>
                    if negb (startswith k "__" && endswith k "__") then
                      m <- MagicMock ;; ret (<[k := m]> d)
                    else ret d)
                 ∅ (map_to_list items).*1 ;;
  dict_new mocks.

(** [serialize_callable_and_test], lines 19-34. *)
Definition serialize_callable_and_test (c : value) (modules : list value)
    : M SerializedCallable :=
  serialized_c <- serialize_callable c modules ;;
  let '(mkSerializedCallable c_name c_source c_modules) := serialized_c in
  deserialize_callable c_name c_source c_modules ;;;
  (if negb (bool_decide (source serialized_c = VNone)) then
     namespace <- namespace_for_modules modules ;;
     mock_namespace <- mock_namespace_of namespace ;;
     mock_c_rebuilt <- deserialize_callable_in_namespace
                         (name serialized_c) (source serialized_c)
                         mock_namespace ;;
     test_callable mock_c_rebuilt
   else ret tt) ;;;
  ret serialized_c.

(** The class [SerializableCallable], lines 165-178.  An instance has the
    attributes [callable] and [modules]; an attribute that was never
    assigned is [None] here. *)
Record SerializableCallable : Type := mkSerializableCallable {
  self_callable : option value;
  self_modules : option (list value);
}.

(** [__init__], lines 167-169. *)
Definition SerializableCallable_init (callable : value) (modules : list value)
    : SerializableCallable :=
  {| self_callable := Some callable; self_modules := Some modules |}.

(** [self.callable] and [self.modules]. *)
Definition self_attr {A} (a : string) (x : option A) : M A :=
  match x with
  | Some v => ret v
  | None => raise (AttributeError a)
  end.

(** [__getstate__], lines 171-173.  The dict it returns has the three keys
    of the named tuple, so it is kept as that record. *)
Definition SerializableCallable_getstate (self : SerializableCallable)
    : M SerializedCallable :=
  c <- self_attr "callable" (self_callable self) ;;
  ms <- self_attr "modules" (self_modules self) ;;
  serialized_c <- serialize_callable_and_test c ms ;;
  ret serialized_c.

(** [__setstate__], lines 175-178: the two assignments, in order. *)
Definition SerializableCallable_setstate (self : SerializableCallable)
    (state : SerializedCallable) : M SerializableCallable :=
  c <- deserialize_callable (name state) (source state) (modules state) ;;
  let self := {| self_callable := Some c;
                 self_modules := self_modules self |} in
  let self := {| self_callable := self_callable self;
                 self_modules := Some (modules state) |} in
  ret self.

(** *** Notions of the specification, to state the properties with *)

(** The leading-whitespace count of a line, counted directly: the number of
    white-space characters before the first other character. *)
Fixpoint leading_whitespace (s : string) : nat :=
  match s with
  | EmptyString => 0
  | String c s' => if isspace c then S (leading_whitespace s') else 0
  end.

(** Whether a text holds a line break. *)
Fixpoint has_linebreak (s : string) : bool :=
  match s with
  | EmptyString => false
  | String c s' => islinebreak c || has_linebreak s'
  end.

(** The first line of a text; the empty text has an empty first line. *)
Definition first_line (s : string) : string :=
  hd EmptyString (splitlines s).

(** The members of a value in state [w], when the value is there. *)
Definition members (w : world) (m : value) : option (gmap string value) :=
  match m with
  | VObj l => o_attrs <$> objs w !! l
  | _ => Some (builtin_members m)
  end.

(** The value that the name [n] has in the module [m]. *)
Definition module_member (w : world) (m : value) (n : string)
    : option value :=
  members w m ≫= (fun d => d !! n).

(** The members of the modules, merged in list order onto [acc]. *)
Definition merge_members (w : world) (modules : list value)
    (acc : gmap string value) : gmap string value :=
  foldl (fun acc m => default ∅ (members w m) ∪ acc) acc modules.

(** The type of a value that is an object of the store. *)
Definition obj_type (w : world) (v : value) : option pytype :=
  match v with
  | VObj l => o_type <$> objs w !! l
  | _ => None
  end.

(** The parts of the state that only executed or called code can change. *)
Definition same_interp (w w' : world) : Prop :=
  objs w' = objs w /\ loadable w' = loadable w /\
  builtins_import w' = builtins_import w.

(** The branches of lines 83-98, which [serialize_callable] takes once it has
    looked the callable up in the inverse mapping. *)
Definition serialize_branches (c : value) (module_names : list value)
    (found : option string) : M SerializedCallable :=
  match found with
  | Some name =>
      ret (mkSerializedCallable (VStr name) VNone module_names)
  | None =>
      tagged <- py_hasattr c "h5_source" ;;
      if tagged : bool then
        c_name <- py_getattr c "__name__" ;;
        c_source <- py_getattr c "source" ;;
        ret (mkSerializedCallable c_name c_source module_names)
      else
        w <- get_world ;;
        if is_partial w c then
          raise (ValueError "Partial function serialization is not yet supported")
        else
          source <- extract_source c ;;
          c_name <- py_getattr c "__name__" ;;
          ret (mkSerializedCallable c_name (VStr source) module_names)
  end.

(** ** Properties *)

(** *** Text *)

Lemma append_String (c : ascii) (s t : string) :
  String c s +:+ t = String c (s +:+ t).
Proof. reflexivity. Qed.

Lemma append_empty (t : string) : EmptyString +:+ t = t.
Proof. reflexivity. Qed.

Lemma string_take_drop (k : nat) (s : string) :
  string_take k s +:+ string_drop k s = s.
Proof.
  revert s; induction k as [|k IH]; intros [|c s]; simpl; try reflexivity.
  now rewrite append_String, IH.
Qed.

Lemma length_string_drop (k : nat) (s : string) :
  String.length (string_drop k s) = String.length s - k.
Proof.
  revert s; induction k as [|k IH]; intros [|c s]; simpl; auto with lia.
Qed.

Lemma length_string_take (k : nat) (s : string) :
  String.length (string_take k s) = Nat.min k (String.length s).
Proof.
  revert s; induction k as [|k IH]; intros [|c s]; simpl; auto.
Qed.

Lemma string_drop_all (k : nat) (s : string) :
  String.length s <= k -> string_drop k s = EmptyString.
Proof.
  revert s; induction k as [|k IH]; intros [|c s]; simpl; intros H;
    try reflexivity; try lia.
  apply IH; lia.
Qed.

Lemma string_drop_min (k : nat) (s : string) :
  string_drop k s = string_drop (Nat.min k (String.length s)) s.
Proof.
  revert s; induction k as [|k IH]; intros [|c s]; simpl; auto.
Qed.

Lemma string_take_min (k : nat) (s : string) :
  string_take k s = string_take (Nat.min k (String.length s)) s.
Proof.
  revert s; induction k as [|k IH]; intros [|c s]; simpl; auto.
  now rewrite <- IH.
Qed.

Lemma slice_from_nat (s : string) (k : nat) :
  slice_from s (Z.of_nat k) = string_drop k s.
Proof.
  unfold slice_from.
  destruct (Z.ltb_spec (Z.of_nat k) 0) as [H|H]; [lia|].
  now rewrite Nat2Z.id.
Qed.

Lemma leading_whitespace_le (s : string) :
  leading_whitespace s <= String.length s.
Proof.
  induction s as [|c s IH]; simpl; [lia|].
  destruct (isspace c); lia.
Qed.

Lemma lstrip_drop (s : string) :
  lstrip s = string_drop (leading_whitespace s) s.
Proof.
  induction s as [|c s IH]; simpl; [reflexivity|].
  destruct (isspace c); simpl; auto.
Qed.

Lemma leading_whitespace_lstrip (s : string) :
  leading_whitespace (lstrip s) = 0.
Proof.
  induction s as [|c s IH]; simpl; [reflexivity|].
  destruct (isspace c) eqn:E; simpl; [exact IH|].
  now rewrite E.
Qed.

(** The subtraction of line 106 is the count of leading white space, and is
    never negative. *)
Lemma leading_space_count (l : string) :
  (len l - len (lstrip l))%Z = Z.of_nat (leading_whitespace l).
Proof.
  unfold len. rewrite lstrip_drop, length_string_drop.
  pose proof (leading_whitespace_le l). lia.
Qed.

(** The character of a line at the position of its leading-whitespace count
    is not white space. *)
Lemma get_leading_whitespace (s : string) :
  leading_whitespace s < String.length s ->
  exists ch, String.get (leading_whitespace s) s = Some ch /\ isspace ch = false.
Proof.
  induction s as [|c s IH]; simpl; [lia|].
  destruct (isspace c) eqn:E; intros H.
  - apply IH; lia.
  - exists c; auto.
Qed.

Lemma get_string_take (i k : nat) (s : string) :
  i < k -> String.get i (string_take k s) = String.get i s.
Proof.
  revert i s; induction k as [|k IH]; intros i [|c s] H; simpl; try lia; auto.
  destruct i as [|i]; simpl; [reflexivity|]. apply IH; lia.
Qed.

Lemma has_linebreak_drop (k : nat) (s : string) :
  has_linebreak s = false -> has_linebreak (string_drop k s) = false.
Proof.
  revert s; induction k as [|k IH]; intros [|c s]; simpl; auto.
  intros [_ H]%orb_false_iff. now apply IH.
Qed.

Lemma LF_islinebreak : islinebreak LF = true.
Proof. unfold islinebreak. destruct is_py2; reflexivity. Qed.

(** No line of [splitlines] holds a line break. *)
Lemma splitlines_no_linebreak (s : string) :
  Forall (fun line => has_linebreak line = false) (splitlines s).
Proof.
  assert (H : forall n s, String.length s <= n ->
            Forall (fun line => has_linebreak line = false) (splitlines s)).
  { clear s. induction n as [|n IH]; intros [|c s] Hn; simpl in *;
      try constructor; try lia.
    destruct (islinebreak c) eqn:E.
    - constructor; [reflexivity|].
      destruct s as [|c' s']; [constructor|].
      destruct (Ascii.eqb c CR && Ascii.eqb c' LF); apply IH; simpl in *; lia.
    - assert (Hs : Forall (fun line => has_linebreak line = false) (splitlines s))
        by (apply IH; lia).
      destruct (splitlines s) as [|line lines].
      + constructor; [simpl; now rewrite E|constructor].
      + inversion Hs; subst. constructor; [simpl; now rewrite E|assumption]. }
  apply (H (String.length s)); lia.
Qed.

(** A text without line breaks, followed by LF and more text, splits into that
    text and the lines of the rest. *)
Lemma splitlines_app_LF (x r : string) :
  has_linebreak x = false ->
  splitlines (x +:+ String LF r) = x :: splitlines r.
Proof.
  induction x as [|c x IH]; simpl; intros H.
  - rewrite LF_islinebreak. destruct r as [|c' r']; reflexivity.
  - apply orb_false_iff in H as [Hc Hx].
    rewrite ?append_String. simpl. rewrite Hc, (IH Hx). reflexivity.
Qed.

Lemma splitlines_single (x : string) :
  has_linebreak x = false -> hd EmptyString (splitlines x) = x.
Proof.
  induction x as [|c x IH]; simpl; intros H; [reflexivity|].
  apply orb_false_iff in H as [Hc Hx]. rewrite Hc.
  specialize (IH Hx). destruct (splitlines x) as [|line lines]; simpl in *.
  - now subst.
  - now subst.
Qed.

(** The first line of lines joined by LF is the first of the lines. *)
Lemma first_line_join (x : string) (xs : list string) :
  has_linebreak x = false ->
  first_line (join (String LF EmptyString) (x :: xs)) = x.
Proof.
  intros H. unfold first_line, join. destruct xs as [|y ys].
  - now apply splitlines_single.
  - change (String.concat (String LF EmptyString) (x :: y :: ys))
      with (x +:+ String LF (String.concat (String LF EmptyString) (y :: ys))).
    now rewrite splitlines_app_LF.
Qed.

Lemma splitlines_nonempty (s : string) :
  s <> EmptyString -> exists l rest, splitlines s = l :: rest.
Proof.
  destruct s as [|c s]; [congruence|]; intros _; simpl.
  destruct (islinebreak c); [eauto|].
  destruct (splitlines s); eauto.
Qed.

Lemma Forall2_map_self {A B} (P : A -> B -> Prop) (f : A -> B) (xs : list A) :
  (forall x, P x (f x)) -> Forall2 P xs (map f xs).
Proof. intros H; induction xs; simpl; constructor; auto. Qed.

(** *** [extract_source] *)

(** What [extract_source] computes when the source text is there and has a
    first line: every line without its first [k] characters, [k] being the
    leading-whitespace count of the first line. *)
Lemma extract_source_run (c : value) (w : world) (src l : string)
    (rest : list string) :
  inspect_getsource c w = (Ok src, w) ->
  splitlines src = l :: rest ->
  extract_source c w =
    (Ok (join (String LF EmptyString)
              (map (string_drop (leading_whitespace l)) (l :: rest))), w).
Proof.
  intros Hsrc Hlines.
  assert (Hmap :
    map (fun l0 => slice_from l0 (len l - len (lstrip l))%Z) (l :: rest)
    = map (string_drop (leading_whitespace l)) (l :: rest)).
  { apply map_ext. intros line. rewrite leading_space_count.
    apply slice_from_nat. }
  unfold extract_source, bind. rewrite Hsrc. cbv beta iota zeta.
  rewrite Hlines. unfold list_getitem.
  change ((l :: rest) !! 0) with (Some l).
  unfold ret. cbv beta iota. now rewrite Hmap.
Qed.

(** C5. For a callable whose source text is retrieved (and is not empty),
    [extract_source] strips from every line as many leading characters as the
    first physical line has leading white space, and the first line of the
    text it returns has no leading white space. *)
Theorem extract_source_dedents_first_line (c : value) (w : world)
    (src : string) :
  inspect_getsource c w = (Ok src, w) ->
  src <> EmptyString ->
  exists l rest,
    splitlines src = l :: rest /\
    let k := leading_whitespace l in
    let out := join (String LF EmptyString) (map (string_drop k) (l :: rest)) in
    extract_source c w = (Ok out, w) /\
    first_line out = string_drop k l /\
    leading_whitespace (first_line out) = 0.
Proof.
  intros Hsrc Hne.
  destruct (splitlines_nonempty src Hne) as (l & rest & Hlines).
  exists l, rest. split; [exact Hlines|]. cbv zeta.
  split; [now apply extract_source_run with (src := src)|].
  assert (Hl : has_linebreak l = false).
  { pose proof (splitlines_no_linebreak src) as HF.
    rewrite Hlines in HF. now inversion HF. }
  assert (Hfirst : first_line
            (join (String LF EmptyString)
               (map (string_drop (leading_whitespace l)) (l :: rest)))
          = string_drop (leading_whitespace l) l).
  { simpl map. apply first_line_join. now apply has_linebreak_drop. }
  split; [exact Hfirst|].
  rewrite Hfirst, <- lstrip_drop. apply leading_whitespace_lstrip.
Qed.

(** C9. [extract_source] raises nothing and removes from every line exactly
    its first [min k (length line)] characters, [k] being the
    leading-whitespace count of the first line, whatever those characters
    are: a line not longer than [k] becomes empty, and a line with less
    leading white space than [k] loses a character that is not white
    space. *)
Theorem extract_source_strips_any_characters (c : value) (w : world)
    (src l : string) (rest : list string) :
  inspect_getsource c w = (Ok src, w) ->
  splitlines src = l :: rest ->
  let k := leading_whitespace l in
  exists out_lines,
    extract_source c w = (Ok (join (String LF EmptyString) out_lines), w) /\
    Forall2
      (fun line out =>
         let removed := string_take (Nat.min k (String.length line)) line in
         line = removed +:+ out /\
         String.length removed = Nat.min k (String.length line) /\
         (String.length line <= k -> out = EmptyString) /\
         (leading_whitespace line < k ->
          leading_whitespace line < String.length line ->
          exists ch,
            String.get (leading_whitespace line) removed = Some ch /\
            isspace ch = false))
      (l :: rest) out_lines.
Proof.
  intros Hsrc Hlines k.
  exists (map (string_drop k) (l :: rest)).
  split; [now apply extract_source_run with (src := src)|].
  apply Forall2_map_self. intros line. cbv zeta.
  repeat split.
  - rewrite <- string_take_min. symmetry. apply string_take_drop.
  - rewrite length_string_take. lia.
  - apply string_drop_all.
  - intros Hk Hlen.
    destruct (get_leading_whitespace line Hlen) as (ch & Hget & Hch).
    exists ch. split; [|exact Hch].
    rewrite get_string_take; [exact Hget|lia].
Qed.

(** *** Namespaces *)

(** [dict(pairs)] of the pairs of a mapping is that mapping. *)
Lemma foldl_insert_pairs (l : list (string * value)) (acc : gmap string value) :
  NoDup l.*1 ->
  foldl (fun d p => <[p.1 := p.2]> d) acc l = list_to_map l ∪ acc.
Proof.
  revert acc; induction l as [|[k v] l IH]; intros acc Hnd; simpl.
  - now rewrite (left_id_L ∅ (∪)).
  - inversion Hnd as [|? ? Hk Hl]; subst.
    rewrite (IH _ Hl), <- insert_union_l.
    symmetry. apply insert_union_r.
    now apply not_elem_of_list_to_map_1.
Qed.

Lemma dict_of_members (d : gmap string value) :
  foldl (fun d p => <[p.1 := p.2]> d) ∅ (map_to_list d) = d.
Proof.
  rewrite foldl_insert_pairs by apply NoDup_fst_map_to_list.
  now rewrite (right_id_L ∅ (∪)), list_to_map_to_list.
Qed.

Lemma namespace_for_module_run (m : value) (w : world)
    (d : gmap string value) :
  members w m = Some d ->
  namespace_for_module m w =
    (Ok (fresh (dom (dicts w))),
     set_dicts (insert (fresh (dom (dicts w))) d) w).
Proof.
  intros Hm. unfold namespace_for_module, bind, inspect_getmembers, py_dict.
  destruct m as [|s|l]; simpl in Hm.
  - injection Hm as <-. unfold dict_new. now rewrite dict_of_members.
  - injection Hm as <-. unfold dict_new. now rewrite dict_of_members.
  - destruct (objs w !! l) as [o|]; simpl in Hm; [|discriminate].
    injection Hm as <-. unfold dict_new. now rewrite dict_of_members.
Qed.

Lemma fresh_dict_None (w : world) : dicts w !! fresh (dom (dicts w)) = None.
Proof. apply not_elem_of_dom, is_fresh. Qed.

Lemma fresh_obj_None (w : world) : objs w !! fresh (dom (objs w)) = None.
Proof. apply not_elem_of_dom, is_fresh. Qed.

Lemma members_same_objs (w w' : world) (m : value) :
  objs w' = objs w -> members w' m = members w m.
Proof. intros H. destruct m; simpl; auto. now rewrite H. Qed.

Lemma module_member_same_objs (w w' : world) (m : value) (n : string) :
  objs w' = objs w -> module_member w' m n = module_member w m n.
Proof. intros H. unfold module_member. now rewrite (members_same_objs _ _ _ H). Qed.

Lemma merge_members_same_objs (w w' : world) (H : objs w' = objs w)
    (modules : list value) :
  forall acc, merge_members w' modules acc = merge_members w modules acc.
Proof.
  unfold merge_members.
  induction modules as [|m modules IH]; intros acc; simpl; [reflexivity|].
  now rewrite IH, (members_same_objs _ _ _ H).
Qed.

(** One round of the loop of [namespace_for_modules]. *)
Lemma namespace_step_run (ns : loc) (m : value) (w : world)
    (dm acc : gmap string value) :
  members w m = Some dm ->
  dicts w !! ns = Some acc ->
  exists w',
    (d <- namespace_for_module m ;; dict_update ns d) w = (Ok tt, w') /\
    dicts w' !! ns = Some (dm ∪ acc) /\
    same_interp w w' /\
    (forall r, r <> ns -> is_Some (dicts w !! r) -> dicts w' !! r = dicts w !! r).
Proof.
  intros Hm Hns. unfold bind at 1. rewrite (namespace_for_module_run _ _ _ Hm).
  set (r := fresh (dom (dicts w))).
  assert (Hr : dicts w !! r = None) by apply fresh_dict_None.
  assert (Hne : r <> ns) by (intros ->; congruence).
  unfold dict_update, bind, dict_items. simpl.
  rewrite lookup_insert_eq. simpl.
  rewrite lookup_insert_ne by exact Hne. rewrite Hns.
  eexists. split; [reflexivity|]. simpl.
  split; [now rewrite lookup_insert_eq|].
  split; [now repeat split|].
  intros r' Hr' [x Hx].
  rewrite lookup_insert_ne by congruence.
  rewrite lookup_insert_ne by (intros ->; congruence). reflexivity.
Qed.

(** The loop of [namespace_for_modules], lines 138-139. *)
Lemma namespace_loop_run (ns : loc) (modules : list value) :
  forall (w : world) (acc : gmap string value),
  Forall (fun m => is_Some (members w m)) modules ->
  dicts w !! ns = Some acc ->
  exists w',
    forM_ modules
      (fun m => d <- namespace_for_module m ;; dict_update ns d) w
      = (Ok tt, w') /\
    dicts w' !! ns = Some (merge_members w modules acc) /\
    same_interp w w' /\
    (forall r, r <> ns -> is_Some (dicts w !! r) -> dicts w' !! r = dicts w !! r).
Proof.
  induction modules as [|m modules IH]; intros w acc Hlive Hns.
  - exists w. simpl. repeat split; auto.
  - inversion Hlive as [|? ? [dm Hm] Hlive']; subst.
    destruct (namespace_step_run ns m w dm acc Hm Hns)
      as (w1 & Hrun1 & Hns1 & (Ho1 & Hl1 & Hi1) & Hkeep1).
    assert (Hmem : forall x, members w1 x = members w x).
    { intros [| |l]; simpl; auto. now rewrite Ho1. }
    destruct (IH w1 (dm ∪ acc)) as (w2 & Hrun2 & Hns2 & (Ho2 & Hl2 & Hi2) & Hkeep2).
    { eapply Forall_impl; [exact Hlive'|]. intros x Hx. now rewrite Hmem. }
    { exact Hns1. }
    exists w2. split.
    { change (forM_ (m :: modules) ?b) with (b m ;;; forM_ modules b).
      unfold bind at 1. rewrite Hrun1. exact Hrun2. }
    split.
    { rewrite Hns2, (merge_members_same_objs _ _ Ho1).
      unfold merge_members. simpl. now rewrite Hm. }
    split; [repeat split; congruence|].
    intros r Hr Hsome. rewrite Hkeep2; auto.
    now rewrite Hkeep1.
Qed.

(** [namespace_for_modules] returns a new dictionary that holds the merged
    members, and leaves everything else as it was. *)
Lemma namespace_for_modules_run (modules : list value) (w : world) :
  Forall (fun m => is_Some (members w m)) modules ->
  exists ns w',
    namespace_for_modules modules w = (Ok ns, w') /\
    dicts w !! ns = None /\
    dicts w' !! ns = Some (merge_members w modules ∅) /\
    same_interp w w' /\
    (forall r, is_Some (dicts w !! r) -> dicts w' !! r = dicts w !! r).
Proof.
  intros Hlive.
  set (ns := fresh (dom (dicts w))).
  assert (Hfresh : dicts w !! ns = None) by apply fresh_dict_None.
  set (w0 := set_dicts (insert ns ∅) w).
  destruct (namespace_loop_run ns modules w0 ∅)
    as (w' & Hrun & Hns & (Ho & Hl & Hi) & Hkeep).
  { exact Hlive. }
  { simpl. apply lookup_insert_eq. }
  exists ns, w'. split.
  { assert (E : namespace_for_modules modules w =
      match forM_ modules
              (fun m => d <- namespace_for_module m ;; dict_update ns d) w0
      with
      | (Ok _, w') => (Ok ns, w')
      | (Raise e, w') => (Raise e, w')
      end) by reflexivity.
    rewrite E, Hrun. reflexivity. }
  split; [exact Hfresh|].
  split; [exact Hns|].
  split; [repeat split; assumption|].
  intros r [x Hx].
  assert (Hne : r <> ns) by (intros ->; congruence).
  rewrite Hkeep; auto.
  - simpl. now rewrite lookup_insert_ne.
  - simpl. rewrite lookup_insert_ne by congruence. eauto.
Qed.

Lemma merge_members_absent (w : world) (n : string) (modules : list value) :
  forall acc,
  Forall (fun m => module_member w m n = None) modules ->
  merge_members w modules acc !! n = acc !! n.
Proof.
  induction modules as [|m modules IH]; intros acc HF; [reflexivity|].
  inversion HF as [|? ? Hm HF']; subst.
  unfold merge_members in *. simpl. rewrite (IH _ HF').
  apply lookup_union_r.
  unfold module_member in Hm.
  destruct (members w m) as [dm|]; simpl in *; [exact Hm|apply lookup_empty].
Qed.

Lemma merge_members_last (w : world) (n : string) (v : value)
    (pre post : list value) (m : value) (acc : gmap string value) :
  module_member w m n = Some v ->
  Forall (fun m' => module_member w m' n = None) post ->
  merge_members w (pre ++ m :: post) acc !! n = Some v.
Proof.
  intros Hm Hpost. unfold merge_members. rewrite foldl_app. simpl.
  fold (merge_members w pre acc).
  fold (merge_members w post
          (default ∅ (members w m) ∪ merge_members w pre acc)).
  rewrite (merge_members_absent _ _ _ _ Hpost).
  apply lookup_union_Some_l.
  unfold module_member in Hm.
  destruct (members w m) as [dm|]; simpl in *; [exact Hm|discriminate].
Qed.

(** C4. The namespace that [namespace_for_modules] builds maps every name to
    the value it has in the last module of the list that defines it (and
    holds no other name): for modules [A; B] that both define [x], the
    namespace has the [x] of [B]. *)
Theorem namespace_for_modules_last_wins (modules : list value) (w : world) :
  Forall (fun m => is_Some (members w m)) modules ->
  exists ns d w',
    namespace_for_modules modules w = (Ok ns, w') /\
    dicts w' !! ns = Some d /\
    (forall pre m post n v,
        modules = pre ++ m :: post ->
        module_member w m n = Some v ->
        Forall (fun m' => module_member w m' n = None) post ->
        d !! n = Some v) /\
    (forall n,
        Forall (fun m => module_member w m n = None) modules ->
        d !! n = None) /\
    (forall A B x a b,
        modules = [A; B] ->
        module_member w A x = Some a ->
        module_member w B x = Some b ->
        d !! x = Some b).
Proof.
  intros Hlive.
  destruct (namespace_for_modules_run modules w Hlive)
    as (ns & w' & Hrun & _ & Hns & _ & _).
  exists ns, (merge_members w modules ∅), w'.
  split; [exact Hrun|]. split; [exact Hns|].
  split; [|split].
  - intros pre m post n v -> Hm Hpost. now apply merge_members_last.
  - intros n Hnone. rewrite merge_members_absent by exact Hnone.
    apply lookup_empty.
  - intros A B x a b -> _ HB.
    apply (merge_members_last w x b [A] [] B); [exact HB|constructor].
Qed.

(** *** Running computations *)

Lemma bind_Ok_inv {A B} (m : M A) (k : A -> M B) (w w' : world) (b : B) :
  bind m k w = (Ok b, w') ->
  exists a w1, m w = (Ok a, w1) /\ k a w1 = (Ok b, w').
Proof.
  unfold bind. destruct (m w) as [[a|e] w1]; [eauto|discriminate].
Qed.

Lemma bind_run_Ok {A B} (m : M A) (k : A -> M B) (w w1 : world) (a : A) :
  m w = (Ok a, w1) -> bind m k w = k a w1.
Proof. unfold bind. now intros ->. Qed.

Lemma bind_run_Raise {A B} (m : M A) (k : A -> M B) (w w1 : world) (e : exn) :
  m w = (Raise e, w1) -> bind m k w = (Raise e, w1).
Proof. unfold bind. now intros ->. Qed.

Lemma dict_items_run (r : loc) (w : world) (d : gmap string value) :
  dicts w !! r = Some d -> dict_items r w = (Ok d, w).
Proof. unfold dict_items. now intros ->. Qed.

Lemma dict_items_world (r : loc) (w : world) : (dict_items r w).2 = w.
Proof. unfold dict_items. now destruct (dicts w !! r). Qed.

Lemma dict_getitem_run (r : loc) (k : string) (w : world)
    (d : gmap string value) :
  dicts w !! r = Some d ->
  dict_getitem r (VStr k) w =
    (match d !! k with
     | Some v => Ok v
     | None => Raise (KeyError (VStr k))
     end, w).
Proof.
  intros Hr. unfold dict_getitem.
  rewrite (bind_run_Ok _ _ _ _ _ (dict_items_run _ _ _ Hr)).
  unfold bind, get_world. simpl. now destruct (d !! k).
Qed.

Lemma dict_getitem_world (r : loc) (key : value) (w : world) :
  (dict_getitem r key w).2 = w.
Proof.
  unfold dict_getitem, bind, dict_items, get_world.
  destruct (dicts w !! r) as [d|]; [|reflexivity].
  destruct (negb (py_hashable w key)); [reflexivity|].
  destruct key as [|k|l]; try reflexivity.
  now destruct (d !! k).
Qed.

Lemma import_module_world (m : value) (w : world) : (import_module m w).2 = w.
Proof.
  unfold import_module. destruct m as [|s|l]; try reflexivity.
  now destruct (loadable w !! s).
Qed.

Lemma py_setattr_dicts (v : value) (a : string) (x : value) (w : world) :
  dicts (py_setattr v a x w).2 = dicts w.
Proof.
  unfold py_setattr. destruct v as [| |l]; try reflexivity.
  destruct (objs w !! l) as [o|]; [|reflexivity].
  now destruct (o_type o).
Qed.

(** *** Deserializing *)

Lemma deserialize_callable_run (nm src : value) (mods ms : list value)
    (w w0 w1 : world) (ns : loc) :
  mapM str_to_module mods w = (Ok ms, w0) ->
  namespace_for_modules ms w0 = (Ok ns, w1) ->
  deserialize_callable nm src mods w =
    deserialize_callable_in_namespace nm src ns w1.
Proof.
  intros H1 H2. unfold deserialize_callable.
  rewrite (bind_run_Ok _ _ _ _ _ H1). now rewrite (bind_run_Ok _ _ _ _ _ H2).
Qed.

(** C8. Deserializing a record without source text, whose modules resolve,
    returns the object bound to the record's name in the namespace built
    from these modules, and raises [KeyError] (the NameResolutionError of the
    specification) exactly when the name is absent from that namespace. *)
Theorem deserialize_direct_reference (k : string) (mods ms : list value)
    (w : world) :
  mapM str_to_module mods w = (Ok ms, w) ->
  Forall (fun m => is_Some (members w m)) ms ->
  exists ns d w',
    namespace_for_modules ms w = (Ok ns, w') /\
    dicts w' !! ns = Some d /\
    (forall v, d !! k = Some v ->
       deserialize_callable (VStr k) VNone mods w = (Ok v, w')) /\
    (d !! k = None <->
       exists e w'', deserialize_callable (VStr k) VNone mods w = (Raise e, w'')) /\
    (forall e w'',
       deserialize_callable (VStr k) VNone mods w = (Raise e, w'') ->
       e = KeyError (VStr k)).
Proof.
  intros Hres Hlive.
  destruct (namespace_for_modules_run ms w Hlive)
    as (ns & w' & Hrun & _ & Hns & _ & _).
  exists ns, (merge_members w ms ∅), w'.
  split; [exact Hrun|]. split; [exact Hns|].
  rewrite (deserialize_callable_run _ _ _ _ _ _ _ _ Hres Hrun).
  unfold deserialize_callable_in_namespace.
  change (bool_decide (VNone = VNone)) with true. cbv iota.
  rewrite (dict_getitem_run _ _ _ _ Hns).
  destruct (merge_members w ms ∅ !! k) as [v|].
  - split; [intros ? [= <-]; reflexivity|].
    split; [|intros e w'' [=]].
    split; [discriminate|]. intros (e & w'' & [=]).
  - split; [discriminate|].
    split; [|intros e w'' [= <- _]; reflexivity].
    split; eauto.
Qed.

(** [safe_exec] runs the source on a new dictionary that holds the bindings
    of the namespace it was given: line 148 rebinds [namespace] to the
    copy. *)
Lemma safe_exec_in_copy (src nm : value) (namespace : loc) (w : world)
    (d : gmap string value) :
  dicts w !! namespace = Some d ->
  let g := fresh (dom (dicts w)) in
  g <> namespace /\
  dicts w !! g = None /\
  safe_exec src namespace nm w =
    (py_exec src g ;;;
     f <- dict_getitem g nm ;;
     py_setattr f "h5_source" src ;;;
     ret f) (set_dicts (insert g d) w).
Proof.
  intros Hns g.
  assert (HN : dicts w !! g = None) by apply fresh_dict_None.
  split; [intros E; rewrite E in HN; congruence|].
  split; [exact HN|].
  unfold safe_exec, dict_copy.
  rewrite (bind_run_Ok _ _ w (set_dicts (insert g d) w) g); [reflexivity|].
  now rewrite (bind_run_Ok _ _ _ _ _ (dict_items_run _ _ _ Hns)).
Qed.

(** C7. When the source field is present, [deserialize_callable_in_namespace]
    executes the source in a copy: provided the executed source writes to no
    dictionary of this module other than the one it is given as globals, the
    namespace passed in holds the same keys and values afterwards, whether
    the deserialization returns or raises. *)
Theorem deserialize_keeps_namespace (nm src : value) (namespace : loc)
    (w : world) (d : gmap string value) :
  src <> VNone ->
  dicts w !! namespace = Some d ->
  (forall s g w0, src = VStr s -> g <> namespace ->
     dicts (exec_sem s g w0).2 !! namespace = dicts w0 !! namespace) ->
  dicts (deserialize_callable_in_namespace nm src namespace w).2 !! namespace
    = Some d.
Proof.
  intros Hsrc Hns Hexec. unfold deserialize_callable_in_namespace.
  rewrite bool_decide_eq_false_2 by exact Hsrc.
  destruct (safe_exec_in_copy src nm namespace w d Hns) as (Hg & _ & E).
  set (g := fresh (dom (dicts w))) in *.
  set (w1 := set_dicts (insert g d) w) in *.
  assert (H1 : dicts w1 !! namespace = Some d).
  { simpl. now rewrite lookup_insert_ne. }
  rewrite E. clear E.
  unfold bind at 1.
  destruct (py_exec src g w1) as [[[]|e] w2] eqn:Hrun.
  - assert (H2 : dicts w2 !! namespace = Some d).
    { destruct src as [|s|l]; simpl in Hrun; try discriminate.
      specialize (Hexec s g w1 eq_refl Hg). rewrite Hrun in Hexec.
      exact (eq_trans Hexec H1). }
    unfold bind at 1.
    pose proof (dict_getitem_world g nm w2) as Hget.
    destruct (dict_getitem g nm w2) as [[f|e] w3]; simpl in Hget; subst w3;
      [|exact H2].
    unfold bind at 1.
    pose proof (py_setattr_dicts f "h5_source" src w2) as Hset.
    destruct (py_setattr f "h5_source" src w2) as [[[]|e] w4]; simpl in *;
      now rewrite Hset.
  - destruct src as [|s|l]; simpl in Hrun.
    + congruence.
    + specialize (Hexec s g w1 eq_refl Hg). rewrite Hrun in Hexec.
      exact (eq_trans Hexec H1).
    + injection Hrun as _ <-. exact H1.
Qed.

(** *** The sandboxed namespace *)

(** The loop of the comprehension of lines 27-28 over a list of keys: the
    keys without double underscores get new mocks, everything else stays. *)
Lemma mock_loop_run (keys : list string) :
  forall (w : world) (acc : gmap string value),
  exists md w',
    foldM (fun (d : gmap string value) (k : string) =>
             if negb (startswith k "__" && endswith k "__") then
               m <- MagicMock ;; ret (<[k := m]> d)
             else ret d) acc keys w = (Ok md, w') /\
    dicts w' = dicts w /\
    (forall l o, objs w !! l = Some o -> objs w' !! l = Some o) /\
    (forall k, k ∉ keys \/ dunder k = true -> md !! k = acc !! k) /\
    (forall k, k ∈ keys -> dunder k = false ->
       exists l, md !! k = Some (VObj l) /\ objs w !! l = None /\
                 objs w' !! l = Some mock_object).
Proof.
  induction keys as [|k0 keys IH]; intros w acc.
  - exists acc, w. simpl. repeat split; auto.
    intros k Hk. now apply elem_of_nil in Hk.
  - simpl. fold (dunder k0). destruct (dunder k0) eqn:Hd0; simpl.
    + destruct (IH w acc) as (md & w' & Hrun & Hdicts & Hmono & Hold & Hnew).
      exists md, w'. split; [exact Hrun|]. split; [exact Hdicts|].
      split; [exact Hmono|]. split.
      * intros k [Hk|Hk]; apply Hold; [left|now right].
        intros Hin. apply Hk. now right.
      * intros k Hk Hd. apply elem_of_cons in Hk as [->|Hk]; [congruence|].
        now apply Hnew.
    + set (l0 := fresh (dom (objs w))).
      set (w1 := set_objs (insert l0 mock_object) w).
      assert (Hl0 : objs w !! l0 = None) by apply fresh_obj_None.
      destruct (IH w1 (<[k0 := VObj l0]> acc))
        as (md & w' & Hrun & Hdicts & Hmono & Hold & Hnew).
      exists md, w'. split; [exact Hrun|]. split; [exact Hdicts|].
      split.
      { intros l o Hl. apply Hmono. simpl.
        rewrite lookup_insert_ne; [exact Hl|]. intros ->. congruence. }
      split.
      { intros k Hk. rewrite Hold.
        - apply lookup_insert_ne. intros ->.
          destruct Hk as [Hk|Hk]; [|congruence]. apply Hk. now left.
        - destruct Hk as [Hk|Hk]; [left|now right].
          intros Hin. apply Hk. now right. }
      intros k Hk Hd.
      assert (Hlift : forall l, objs w1 !! l = None -> objs w !! l = None).
      { intros l. simpl. destruct (decide (l0 = l)) as [->|Hne].
        - now rewrite lookup_insert_eq.
        - now rewrite lookup_insert_ne. }
      destruct (decide (k ∈ keys)) as [Hin|Hnin].
      * destruct (Hnew k Hin Hd) as (l & Hmd & Hnone & Hmock).
        exists l. auto.
      * apply elem_of_cons in Hk as [->|Hk]; [|contradiction].
        exists l0. split; [|split].
        -- rewrite Hold by now left. apply lookup_insert_eq.
        -- exact Hl0.
        -- apply Hmono. simpl. apply lookup_insert_eq.
Qed.

(** C2, as the code has it. The sandboxed namespace holds the keys of the
    real namespace that do not both start and end with a double underscore,
    and no other key; every value is a new [MagicMock]; the real namespace
    is left as it was. *)
Theorem mock_namespace_keys (namespace : loc) (w : world)
    (d : gmap string value) :
  dicts w !! namespace = Some d ->
  exists mock_namespace md w',
    mock_namespace_of namespace w = (Ok mock_namespace, w') /\
    dicts w' !! mock_namespace = Some md /\
    dicts w' !! namespace = Some d /\
    dom md = filter (fun k => dunder k = false) (dom d) /\
    (forall k v, md !! k = Some v ->
       exists l, v = VObj l /\ objs w !! l = None /\
                 objs w' !! l = Some mock_object).
Proof.
  intros Hns.
  destruct (mock_loop_run (map_to_list d).*1 w ∅)
    as (md & w1 & Hrun & Hdicts & Hmono & Hold & Hnew).
  set (r := fresh (dom (dicts w1))).
  exists r, md, (set_dicts (insert r md) w1).
  assert (Hr : dicts w1 !! r = None) by apply fresh_dict_None.
  assert (Hkeys : forall k, k ∈ (map_to_list d).*1 <-> k ∈ dom d).
  { intros k. rewrite elem_of_dom. split.
    - intros ((k' & v) & -> & Hin)%list_elem_of_fmap.
      apply elem_of_map_to_list in Hin. eauto.
    - intros [v Hv]. apply list_elem_of_fmap. exists (k, v).
      split; [reflexivity|]. now apply elem_of_map_to_list. }
  split.
  { unfold mock_namespace_of.
    rewrite (bind_run_Ok _ _ _ _ _ (dict_items_run _ _ _ Hns)).
    now rewrite (bind_run_Ok _ _ _ _ _ Hrun). }
  split; [simpl; apply lookup_insert_eq|].
  split.
  { simpl. rewrite lookup_insert_ne; [now rewrite Hdicts|].
    intros ->. rewrite Hdicts in Hr. congruence. }
  split.
  - apply set_eq. intros k. rewrite elem_of_filter, elem_of_dom, <- Hkeys.
    split.
    + intros [v Hv]. destruct (dunder k) eqn:Hd.
      * rewrite Hold in Hv by now right. now rewrite lookup_empty in Hv.
      * split; [reflexivity|]. destruct (decide (k ∈ (map_to_list d).*1)); auto.
        rewrite Hold in Hv by now left. now rewrite lookup_empty in Hv.
    + intros [Hd Hin]. destruct (Hnew k Hin Hd) as (l & Hl & _). eauto.
  - intros k v Hv. simpl.
    destruct (dunder k) eqn:Hd.
    { rewrite Hold in Hv by now right. now rewrite lookup_empty in Hv. }
    destruct (decide (k ∈ (map_to_list d).*1)) as [Hin|Hnin].
    + destruct (Hnew k Hin Hd) as (l & Hl & Hnone & Hmock).
      exists l. rewrite Hl in Hv. injection Hv as <-. auto.
    + rewrite Hold in Hv by now left. now rewrite lookup_empty in Hv.
Qed.

(** *** The import hook *)





(** *** Serializing *)

Lemma py_getattr_member (w : world) (m : value) (a : string) (x : value) :
  module_member w m a = Some x -> py_getattr m a w = (Ok x, w).
Proof.
  unfold module_member, members, py_getattr.
  destruct m as [|s|l]; simpl.
  - now intros ->.
  - now intros ->.
  - destruct (objs w !! l) as [o|]; simpl; [|discriminate]. now intros ->.
Qed.

Lemma py_getattr_absent (w : world) (l : loc) (o : object) (a : string) :
  objs w !! l = Some o ->
  o_attrs o !! a = None ->
  o_type o <> TMagicMock ->
  py_getattr (VObj l) a w = (Raise (AttributeError a), w).
Proof.
  intros Ho Ha Ht. unfold py_getattr. rewrite Ho, Ha.
  destruct (o_type o); congruence.
Qed.

Lemma module_names_run (w : world) (modules names : list value) :
  Forall2 (fun m n => module_member w m "__name__" = Some n) modules names ->
  mapM module_to_str modules w = (Ok names, w).
Proof.
  induction 1 as [|m n modules names Hm _ IH]; [reflexivity|].
  simpl. unfold module_to_str at 1.
  rewrite (bind_run_Ok _ _ _ _ _ (py_getattr_member _ _ _ _ Hm)).
  now rewrite (bind_run_Ok _ _ _ _ _ IH).
Qed.

(** A name that the inverse mapping gives to [c] is bound to [c]. *)
Lemma inverse_pairs_lookup (l : list (string * value)) (c : value) (n : string) :
  forall acc : gmap value string,
  foldl (fun d p => <[p.2 := p.1]> d) acc l !! c = Some n ->
  acc !! c = Some n \/ (n, c) ∈ l.
Proof.
  induction l as [|[k v] l IH]; intros acc H; simpl in *; [now left|].
  destruct (IH _ H) as [Hacc|Hin].
  - destruct (decide (v = c)) as [->|Hne].
    + rewrite lookup_insert_eq in Hacc. injection Hacc as ->.
      right. now left.
    + rewrite lookup_insert_ne in Hacc by exact Hne. now left.
  - right. now right.
Qed.

Lemma callable_to_name_bound (w : world) (namespace : gmap string value)
    (c : value) (n : string) :
  callable_to_name_of (name_to_callable_of w namespace) !! c = Some n ->
  namespace !! n = Some c.
Proof.
  unfold callable_to_name_of. intros H.
  apply inverse_pairs_lookup in H as [H|H].
  - now rewrite lookup_empty in H.
  - apply elem_of_map_to_list in H. unfold name_to_callable_of in H.
    now apply map_lookup_filter_Some in H as [H _].
Qed.

(** The first half of [serialize_callable], lines 76-82, for modules that
    have their [__name__]. *)
Lemma serialize_callable_prefix (c : value) (modules names : list value)
    (w : world) :
  Forall2 (fun m n => module_member w m "__name__" = Some n) modules names ->
  exists ns w1,
    namespace_for_modules modules w = (Ok ns, w1) /\
    same_interp w w1 /\
    (forall r, is_Some (dicts w !! r) -> dicts w1 !! r = dicts w !! r) /\
    serialize_callable c modules w =
      (found <- dict_get
                  (callable_to_name_of
                     (name_to_callable_of w1 (merge_members w modules ∅))) c ;;
       serialize_branches c names found) w1.
Proof.
  intros Hnames.
  assert (Hlive : Forall (fun m => is_Some (members w m)) modules).
  { clear c. induction Hnames as [|m n ms ns Hm _ IH]; constructor; auto.
    unfold module_member in Hm. destruct (members w m); [eauto|discriminate]. }
  destruct (namespace_for_modules_run modules w Hlive)
    as (ns & w1 & Hrun & _ & Hns & Hsame & Hkeep).
  exists ns, w1. split; [exact Hrun|]. split; [exact Hsame|].
  split; [exact Hkeep|].
  assert (Hnames1 : Forall2 (fun m n => module_member w1 m "__name__" = Some n)
                      modules names).
  { destruct Hsame as (Ho & _). eapply Forall2_impl; [exact Hnames|].
    intros m n Hm. now rewrite (module_member_same_objs _ _ _ _ Ho). }
  unfold serialize_callable.
  rewrite (bind_run_Ok _ _ _ _ _ Hrun).
  rewrite (bind_run_Ok _ _ _ _ _ (dict_items_run _ _ _ Hns)).
  unfold bind at 1, get_world at 1. cbv beta iota zeta.
  now rewrite (bind_run_Ok _ _ _ _ _ (module_names_run _ _ _ Hnames1)).
Qed.

(** The same, when the callable is hashable and is bound to no name of the
    modules: the lookup of line 82 gives [None]. *)
Lemma serialize_callable_not_found (c : value) (modules names : list value)
    (w : world) :
  Forall2 (fun m n => module_member w m "__name__" = Some n) modules names ->
  py_hashable w c = true ->
  (forall n, merge_members w modules ∅ !! n <> Some c) ->
  exists w1,
    same_interp w w1 /\
    serialize_callable c modules w = serialize_branches c names None w1.
Proof.
  intros Hnames Hhash Hnone.
  destruct (serialize_callable_prefix c modules names w Hnames)
    as (ns & w1 & _ & Hsame & _ & Heq).
  exists w1. split; [exact Hsame|]. rewrite Heq.
  unfold bind at 1, dict_get, bind at 1, get_world.
  assert (Hhash1 : py_hashable w1 c = true).
  { destruct Hsame as (Ho & _). unfold py_hashable in *.
    destruct c; auto. now rewrite Ho. }
  rewrite Hhash1. unfold ret at 1.
  destruct (callable_to_name_of _ !! c) as [n|] eqn:Hfound; [|reflexivity].
  apply callable_to_name_bound in Hfound. now apply Hnone in Hfound.
Qed.

Lemma module_member_obj (w : world) (v : value) (a : string) (t : pytype) :
  obj_type w v = Some t ->
  exists l o, v = VObj l /\ objs w !! l = Some o /\ o_type o = t /\
              module_member w v a = o_attrs o !! a.
Proof.
  unfold obj_type, module_member, members.
  destruct v as [| |l]; simpl; try discriminate.
  destruct (objs w !! l) as [o|] eqn:E; simpl; [|discriminate].
  intros [= <-]. exists l, o. repeat split; auto.
Qed.

Lemma py_hasattr_absent (w : world) (v : value) (a : string) (t : pytype) :
  obj_type w v = Some t ->
  t <> TMagicMock ->
  module_member w v a = None ->
  py_hasattr v a w = (Ok false, w).
Proof.
  intros Ht Hne Ha.
  destruct (module_member_obj w v a t Ht) as (l & o & -> & Ho & Hto & Hm).
  unfold py_hasattr. rewrite (py_getattr_absent w l o a); auto; congruence.
Qed.

Lemma py_hasattr_member (w : world) (v : value) (a : string) (x : value) :
  module_member w v a = Some x -> py_hasattr v a w = (Ok true, w).
Proof.
  intros H. unfold py_hasattr. now rewrite (py_getattr_member _ _ _ _ H).
Qed.

Lemma obj_type_same_objs (w w' : world) (v : value) :
  objs w' = objs w -> obj_type w' v = obj_type w v.
Proof. intros H. destruct v; simpl; auto. now rewrite H. Qed.

(** C3, as the code has it. For a partial that is bound to no name of the
    modules and carries no [h5_source] attribute, [serialize_callable] raises
    [ValueError] (the UnsupportedCallableError of the specification) and
    returns no record, for every list of modules that have their
    [__name__]. *)
Theorem serialize_partial_unsupported (c : value) (modules names : list value)
    (w : world) :
  is_partial w c = true ->
  Forall2 (fun m n => module_member w m "__name__" = Some n) modules names ->
  (forall n, merge_members w modules ∅ !! n <> Some c) ->
  module_member w c "h5_source" = None ->
  exists w',
    serialize_callable c modules w =
      (Raise (ValueError "Partial function serialization is not yet supported"),
       w') /\
    same_interp w w'.
Proof.
  intros Hpartial Hnames Hnone Htag.
  assert (Ht : obj_type w c = Some TPartial).
  { unfold is_partial, obj_type in *. destruct c as [| |l]; try discriminate.
    destruct (objs w !! l) as [o|]; [|discriminate]. simpl.
    now apply bool_decide_eq_true_1 in Hpartial as ->. }
  assert (Hhash : py_hashable w c = true).
  { destruct (module_member_obj w c "h5_source" _ Ht) as (l & o & -> & Ho & Hto & _).
    unfold py_hashable. now rewrite Ho, Hto. }
  destruct (serialize_callable_not_found c modules names w Hnames Hhash Hnone)
    as (w1 & Hsame & Heq).
  exists w1. split; [|exact Hsame]. rewrite Heq.
  destruct Hsame as (Ho & _).
  unfold serialize_branches.
  rewrite (bind_run_Ok _ _ w1 w1 false).
  - unfold bind, get_world.
    assert (Hp1 : is_partial w1 c = true).
    { unfold is_partial in *. destruct c; auto. now rewrite Ho. }
    now rewrite Hp1.
  - apply (py_hasattr_absent w1 c "h5_source" TPartial).
    + now rewrite (obj_type_same_objs _ _ _ Ho).
    + discriminate.
    + now rewrite (module_member_same_objs _ _ _ _ Ho).
Qed.

Lemma py_setattr_Ok (v : value) (a : string) (x : value) (w w' : world) :
  py_setattr v a x w = (Ok tt, w') -> module_member w' v a = Some x.
Proof.
  unfold py_setattr, module_member, members.
  destruct v as [| |l]; try discriminate.
  destruct (objs w !! l) as [o|]; [|discriminate].
  destruct (o_type o); try discriminate; intros [= <-]; simpl;
    rewrite lookup_insert_eq; simpl; apply lookup_insert_eq.
Qed.

(** The callable that [safe_exec] returns carries the source text it was
    built from as its attribute [h5_source]. *)
Lemma safe_exec_tags (src : value) (namespace : loc) (nm f : value)
    (w w1 : world) :
  safe_exec src namespace nm w = (Ok f, w1) ->
  module_member w1 f "h5_source" = Some src.
Proof.
  unfold safe_exec. intros H.
  apply bind_Ok_inv in H as (g & wa & _ & H).
  apply bind_Ok_inv in H as ([] & wb & _ & H).
  apply bind_Ok_inv in H as (f' & wc & _ & H).
  apply bind_Ok_inv in H as ([] & wd & Hset & H).
  injection H as <- <-. now apply py_setattr_Ok in Hset.
Qed.

Lemma deserialize_callable_tags (nm src : value) (mods : list value)
    (f : value) (w w1 : world) :
  src <> VNone ->
  deserialize_callable nm src mods w = (Ok f, w1) ->
  module_member w1 f "h5_source" = Some src.
Proof.
  intros Hsrc H. unfold deserialize_callable in H.
  apply bind_Ok_inv in H as (ms & wa & _ & H).
  apply bind_Ok_inv in H as (ns & wb & _ & H).
  unfold deserialize_callable_in_namespace in H.
  rewrite bool_decide_eq_false_2 in H by exact Hsrc.
  now apply safe_exec_tags in H.
Qed.

(** C1, on the code. A function that was rebuilt from a record with source
    text carries the text as [h5_source]; when it is serialized again (being
    bound to no name of the modules, having its [__name__] and no attribute
    [source]), [serialize_callable] takes the branch of line 86 and raises
    [AttributeError] at [c.source] on line 88: it returns no record. *)
Theorem reserialize_attached_source_raises (nm : value) (s : string)
    (mods : list value) (w w1 : world) (f fname : value)
    (modules names : list value) :
  deserialize_callable nm (VStr s) mods w = (Ok f, w1) ->
  Forall2 (fun m n => module_member w1 m "__name__" = Some n) modules names ->
  (forall n, merge_members w1 modules ∅ !! n <> Some f) ->
  obj_type w1 f = Some TFunction ->
  module_member w1 f "__name__" = Some fname ->
  module_member w1 f "source" = None ->
  module_member w1 f "h5_source" = Some (VStr s) /\
  exists w2,
    serialize_callable f modules w1 = (Raise (AttributeError "source"), w2).
Proof.
  intros Hde Hnames Hnone Ht Hname Hsource.
  assert (Htag : module_member w1 f "h5_source" = Some (VStr s)).
  { now apply (deserialize_callable_tags nm (VStr s) mods f w w1). }
  split; [exact Htag|].
  assert (Hhash : py_hashable w1 f = true).
  { destruct (module_member_obj w1 f "source" _ Ht) as (l & o & -> & Ho & Hto & _).
    unfold py_hashable. now rewrite Ho, Hto. }
  destruct (serialize_callable_not_found f modules names w1 Hnames Hhash Hnone)
    as (w2 & (Ho & _) & Heq).
  exists w2. rewrite Heq. unfold serialize_branches.
  rewrite (bind_run_Ok _ _ w2 w2 true).
  2:{ apply (py_hasattr_member w2 f "h5_source" (VStr s)).
      now rewrite (module_member_same_objs _ _ _ _ Ho). }
  cbv iota.
  rewrite (bind_run_Ok _ _ w2 w2 fname).
  2:{ apply py_getattr_member.
      now rewrite (module_member_same_objs _ _ _ _ Ho). }
  apply bind_run_Raise.
  rewrite <- (obj_type_same_objs _ _ _ Ho) in Ht.
  rewrite <- (module_member_same_objs _ _ _ _ Ho) in Hsource.
  destruct (module_member_obj w2 f "source" _ Ht) as (l & o & -> & Hl & Hto & Hm).
  apply (py_getattr_absent w2 l o); [exact Hl|congruence|congruence].
Qed.

(** *** Pickling *)

(** Every record that [serialize_callable] returns has the module names of
    line 78 as its [modules]. *)
Lemma serialize_branches_modules (c : value) (names : list value)
    (found : option string) (w w' : world) (st : SerializedCallable) :
  serialize_branches c names found w = (Ok st, w') -> modules st = names.
Proof.
  unfold serialize_branches. destruct found as [n|].
  - now intros [= <- _].
  - intros H. apply bind_Ok_inv in H as ([|] & wa & _ & H).
    + apply bind_Ok_inv in H as (x & wb & _ & H).
      apply bind_Ok_inv in H as (y & wc & _ & H).
      now injection H as <- _.
    + apply bind_Ok_inv in H as (wx & wb & _ & H).
      destruct (is_partial wx c); [discriminate|].
      apply bind_Ok_inv in H as (x & wc & _ & H).
      apply bind_Ok_inv in H as (y & wd & _ & H).
      now injection H as <- _.
Qed.

Lemma serialize_callable_modules (c : value) (ms names : list value)
    (w w' : world) (st : SerializedCallable) :
  Forall2 (fun m n => module_member w m "__name__" = Some n) ms names ->
  serialize_callable c ms w = (Ok st, w') ->
  modules st = names.
Proof.
  intros Hnames H.
  destruct (serialize_callable_prefix c ms names w Hnames)
    as (ns & w1 & _ & _ & _ & Heq).
  rewrite Heq in H. apply bind_Ok_inv in H as (found & wa & _ & H).
  now apply serialize_branches_modules in H.
Qed.

Lemma getstate_Ok_inv (c : value) (ms : list value) (w w1 : world)
    (st : SerializedCallable) :
  SerializableCallable_getstate (SerializableCallable_init c ms) w = (Ok st, w1) ->
  exists w', serialize_callable c ms w = (Ok st, w').
Proof.
  unfold SerializableCallable_getstate, SerializableCallable_init. simpl.
  intros H.
  apply bind_Ok_inv in H as (c' & wa & [= <- <-] & H).
  apply bind_Ok_inv in H as (ms' & wb & [= <- <-] & H).
  apply bind_Ok_inv in H as (st' & wc & H & [= <- <-]).
  unfold serialize_callable_and_test in H.
  apply bind_Ok_inv in H as (sc & wd & Hser & H).
  destruct sc as [n s m].
  apply bind_Ok_inv in H as (x & we & _ & H).
  apply bind_Ok_inv in H as (y & wf & _ & [= <- _]).
  eauto.
Qed.

(** [__setstate__] stores the list of the record, as it is. *)
Lemma setstate_modules (self self' : SerializableCallable)
    (state : SerializedCallable) (w w' : world) :
  SerializableCallable_setstate self state w = (Ok self', w') ->
  self_modules self' = Some (modules state) /\
  exists c, self_callable self' = Some c.
Proof.
  unfold SerializableCallable_setstate. intros H.
  apply bind_Ok_inv in H as (c & wa & _ & [= <- _]). simpl. eauto.
Qed.

(** [__getstate__] of an instance whose [modules] are strings fails at
    [module_to_str]: a string has no [__name__]. *)
Lemma getstate_of_strings (c : value) (s : string) (names : list value)
    (w : world) :
  builtin_members (VStr s) !! "__name__" = None ->
  Forall (fun n => exists s', n = VStr s') names ->
  exists w',
    SerializableCallable_getstate
      {| self_callable := Some c; self_modules := Some (VStr s :: names) |} w
    = (Raise (AttributeError "__name__"), w').
Proof.
  intros Hstr Hnames.
  assert (Hlive : Forall (fun m => is_Some (members w m)) (VStr s :: names)).
  { constructor; [simpl; eauto|].
    eapply Forall_impl; [exact Hnames|]. intros n (s' & ->). simpl. eauto. }
  destruct (namespace_for_modules_run _ w Hlive)
    as (ns & w1 & Hrun & _ & Hns & _ & _).
  exists w1.
  unfold SerializableCallable_getstate. simpl.
  unfold bind at 1, ret at 1. unfold bind at 1, ret at 1.
  apply bind_run_Raise. unfold serialize_callable_and_test.
  apply bind_run_Raise. unfold serialize_callable.
  rewrite (bind_run_Ok _ _ _ _ _ Hrun).
  rewrite (bind_run_Ok _ _ _ _ _ (dict_items_run _ _ _ Hns)).
  unfold bind at 1, get_world at 1. cbv beta iota zeta.
  apply bind_run_Raise. simpl. apply bind_run_Raise.
  unfold module_to_str, py_getattr. now rewrite Hstr.
Qed.

(** C10. An instance made by [__init__] with module objects, pickled by
    [__getstate__] and rebuilt by [__setstate__], holds in [modules] the
    list of the record: the names of the modules, which are strings and not
    the module objects it started with.  [module_to_str] fails on them, so a
    later [__getstate__] of the rebuilt instance raises [AttributeError]. *)
Theorem setstate_holds_module_names (c : value) (ms : list value)
    (w w1 w2 : world) (st : SerializedCallable)
    (self0 self' : SerializableCallable) :
  Forall (fun m => obj_type w m = Some TModule /\
                   exists s, module_member w m "__name__" = Some (VStr s)) ms ->
  SerializableCallable_getstate (SerializableCallable_init c ms) w = (Ok st, w1) ->
  SerializableCallable_setstate self0 st w1 = (Ok self', w2) ->
  self_modules self' = Some (modules st) /\
  Forall2 (fun m n => module_member w m "__name__" = Some n) ms (modules st) /\
  Forall (fun n => exists s, n = VStr s) (modules st) /\
  (ms <> [] -> self_modules self' <> Some ms) /\
  ((forall s, builtin_members (VStr s) !! "__name__" = None) ->
   ms <> [] ->
   forall w3, exists w4,
     SerializableCallable_getstate self' w3
     = (Raise (AttributeError "__name__"), w4)).
Proof.
  intros Hms Hget Hset.
  destruct (setstate_modules _ _ _ _ _ Hset) as (Hmods & c' & Hc').
  destruct (getstate_Ok_inv _ _ _ _ _ Hget) as (w' & Hser).
  assert (Hnames : exists names,
            Forall2 (fun m n => module_member w m "__name__" = Some n) ms names /\
            Forall (fun n => exists s, n = VStr s) names).
  { clear Hget Hset Hser. induction Hms as [|m ms (_ & s & Hm) _ (names & H2 & HF)].
    - exists []. split; constructor.
    - exists (VStr s :: names). split; constructor; eauto. }
  destruct Hnames as (names & Hnames & Hstrings).
  pose proof (serialize_callable_modules _ _ _ _ _ _ Hnames Hser) as Heq.
  rewrite Heq in *.
  split; [exact Hmods|]. split; [exact Hnames|]. split; [exact Hstrings|].
  split.
  - intros Hne. rewrite Hmods. intros [= E]. rewrite E in Hstrings.
    destruct Hms as [|m ms (Ht & _) _]; [congruence|].
    apply Forall_cons in Hstrings as [(s & ->) _]. discriminate.
  - intros Hstr Hne w3.
    destruct self' as [sc sm]. simpl in *. subst sc sm.
    destruct Hnames as [|m n ms names _ _]; [congruence|].
    apply Forall_cons in Hstrings as [(s & ->) Hrest].
    now apply getstate_of_strings.
Qed.

(** ** Further properties *)

(** *** Callables found by name *)


Lemma py_hashable_same_objs (w w' : world) (v : value) :
  objs w' = objs w -> py_hashable w' v = py_hashable w v.
Proof. intros H. destruct v; simpl; auto. now rewrite H. Qed.

Lemma is_partial_same_objs (w w' : world) (v : value) :
  objs w' = objs w -> is_partial w' v = is_partial w v.
Proof. intros H. destruct v; simpl; auto. now rewrite H. Qed.




Lemma names_live (w : world) (modules names : list value) :
  Forall2 (fun m nm => module_member w m "__name__" = Some nm) modules names ->
  Forall (fun m => is_Some (members w m)) modules.
Proof.
  induction 1 as [|m n ms ns Hm _ IH]; constructor; auto.
  unfold module_member in Hm. destruct (members w m); [eauto|discriminate].
Qed.

Lemma str_to_module_world (names : list value) (w : world) :
  (mapM str_to_module names w).2 = w.
Proof.
  induction names as [|nm names IH]; [reflexivity|].
  simpl. unfold bind at 1, str_to_module at 1.
  pose proof (import_module_world nm w) as Hw.
  destruct (import_module nm w) as [[m|e] w1]; simpl in Hw; subst w1;
    [|reflexivity].
  unfold bind. destruct (mapM str_to_module names w) as [[ms|e] w1];
    simpl in *; exact IH.
Qed.






(** *** Callables that are not found by name *)

Lemma inspect_getsource_same_objs (c : value) (w w' : world)
    (r : result string) :
  objs w' = objs w ->
  inspect_getsource c w = (r, w) ->
  inspect_getsource c w' = (r, w').
Proof.
  intros Ho. unfold inspect_getsource. destruct c as [| |l].
  - now intros [= <-].
  - now intros [= <-].
  - rewrite Ho. destruct (objs w !! l) as [o|]; [|now intros [= <-]].
    destruct (o_source o); now intros [= <-].
Qed.

Lemma inspect_getsource_world (c : value) (w : world) :
  (inspect_getsource c w).2 = w.
Proof.
  unfold inspect_getsource. destruct c as [| |l]; try reflexivity.
  destruct (objs w !! l) as [o|]; [|reflexivity].
  now destruct (o_source o).
Qed.

Lemma is_partial_other (w : world) (c : value) (t : pytype) :
  obj_type w c = Some t -> t <> TPartial -> is_partial w c = false.
Proof.
  unfold obj_type, is_partial. destruct c as [| |l]; try discriminate.
  destruct (objs w !! l) as [o|]; [|discriminate]. simpl.
  intros [= <-] Ht. now apply bool_decide_eq_false_2.
Qed.

Lemma py_hashable_type (w : world) (c : value) (t : pytype) :
  obj_type w c = Some t -> py_hashable w c = type_hashable t.
Proof.
  unfold obj_type, py_hashable. destruct c as [| |l]; try discriminate.
  destruct (objs w !! l) as [o|]; [|discriminate]. simpl. now intros [= <-].
Qed.

(** The branch of lines 94-98, up to the call of [extract_source]: taken by
    an object that is not found by name, has no [h5_source] and is no
    partial. *)
Lemma serialize_callable_novel (c : value) (modules names : list value)
    (w : world) (t : pytype) :
  Forall2 (fun m n => module_member w m "__name__" = Some n) modules names ->
  (forall n, merge_members w modules ∅ !! n <> Some c) ->
  obj_type w c = Some t ->
  type_hashable t = true ->
  t <> TPartial ->
  t <> TMagicMock ->
  module_member w c "h5_source" = None ->
  exists w1,
    same_interp w w1 /\
    serialize_callable c modules w =
      (source <- extract_source c ;;
       c_name <- py_getattr c "__name__" ;;
       ret (mkSerializedCallable c_name (VStr source) names)) w1.
Proof.
  intros Hnames Hnone Ht Hh Hnp Hnm Htag.
  assert (Hhash : py_hashable w c = true)
    by now rewrite (py_hashable_type _ _ _ Ht).
  destruct (serialize_callable_not_found c modules names w Hnames Hhash Hnone)
    as (w1 & Hsame & Heq).
  exists w1. split; [exact Hsame|]. rewrite Heq.
  destruct Hsame as (Ho & _).
  unfold serialize_branches.
  rewrite (bind_run_Ok _ _ w1 w1 false).
  2:{ apply (py_hasattr_absent w1 c "h5_source" t); auto.
      - now rewrite (obj_type_same_objs _ _ _ Ho).
      - now rewrite (module_member_same_objs _ _ _ _ Ho). }
  cbv iota. unfold bind at 1, get_world at 1.
  rewrite (is_partial_other w1 c t); auto.
  now rewrite (obj_type_same_objs _ _ _ Ho).
Qed.

(** X3. A new function. An object that is bound to no name of the modules,
    has no [h5_source], is hashable and neither a partial nor a mock, and
    whose source text is retrieved, is serialized as its [__name__], its
    source with every line cut by the leading white space of the first line,
    and the names of the modules. *)
Theorem serialize_extracts_source (c fname : value)
    (modules names : list value) (w : world) (t : pytype)
    (src l : string) (rest : list string) :
  Forall2 (fun m n => module_member w m "__name__" = Some n) modules names ->
  (forall n, merge_members w modules ∅ !! n <> Some c) ->
  obj_type w c = Some t ->
  type_hashable t = true ->
  t <> TPartial ->
  t <> TMagicMock ->
  module_member w c "h5_source" = None ->
  module_member w c "__name__" = Some fname ->
  inspect_getsource c w = (Ok src, w) ->
  splitlines src = l :: rest ->
  exists w',
    serialize_callable c modules w =
      (Ok (mkSerializedCallable fname
             (VStr (join (String LF EmptyString)
                      (map (string_drop (leading_whitespace l)) (l :: rest))))
             names), w') /\
    same_interp w w'.
Proof.
  intros Hnames Hnone Ht Hh Hnp Hnm Htag Hname Hsrc Hlines.
  destruct (serialize_callable_novel c modules names w t)
    as (w1 & Hsame & Heq); auto.
  exists w1. split; [|exact Hsame]. rewrite Heq.
  destruct Hsame as (Ho & _).
  pose proof (inspect_getsource_same_objs _ _ _ _ Ho Hsrc) as Hsrc1.
  rewrite (bind_run_Ok _ _ _ _ _ (extract_source_run _ _ _ _ _ Hsrc1 Hlines)).
  rewrite (bind_run_Ok _ _ w1 w1 fname); [reflexivity|].
  apply py_getattr_member. now rewrite (module_member_same_objs _ _ _ _ Ho).
Qed.

(** X4. No fallback without source. For such an object, when
    [inspect.getsource] raises, [serialize_callable] raises the same
    exception, and when the text is empty it raises [IndexError]; no record
    is returned. *)
Theorem serialize_source_unavailable (c : value)
    (modules names : list value) (w : world) (t : pytype) :
  Forall2 (fun m n => module_member w m "__name__" = Some n) modules names ->
  (forall n, merge_members w modules ∅ !! n <> Some c) ->
  obj_type w c = Some t ->
  type_hashable t = true ->
  t <> TPartial ->
  t <> TMagicMock ->
  module_member w c "h5_source" = None ->
  (forall e, inspect_getsource c w = (Raise e, w) ->
     exists w', serialize_callable c modules w = (Raise e, w')) /\
  (inspect_getsource c w = (Ok EmptyString, w) ->
     exists w', serialize_callable c modules w = (Raise IndexError, w')).
Proof.
  intros Hnames Hnone Ht Hh Hnp Hnm Htag.
  destruct (serialize_callable_novel c modules names w t)
    as (w1 & (Ho & _) & Heq); auto.
  split.
  - intros e Hsrc. exists w1. rewrite Heq.
    pose proof (inspect_getsource_same_objs _ _ _ _ Ho Hsrc) as Hsrc1.
    apply bind_run_Raise. unfold extract_source. now apply bind_run_Raise.
  - intros Hsrc. exists w1. rewrite Heq.
    pose proof (inspect_getsource_same_objs _ _ _ _ Ho Hsrc) as Hsrc1.
    apply bind_run_Raise. unfold extract_source.
    now rewrite (bind_run_Ok _ _ _ _ _ Hsrc1).
Qed.

(** X5. A callable that is not hashable cannot be looked up on line 82:
    [serialize_callable] raises [TypeError], whatever else holds of it. *)
Theorem serialize_unhashable (c : value) (modules names : list value)
    (w : world) :
  Forall2 (fun m n => module_member w m "__name__" = Some n) modules names ->
  py_hashable w c = false ->
  exists w',
    serialize_callable c modules w = (Raise TypeError, w') /\
    same_interp w w'.
Proof.
  intros Hnames Hh.
  destruct (serialize_callable_prefix c modules names w Hnames)
    as (ns & w1 & _ & Hsame & _ & Heq).
  exists w1. split; [|exact Hsame]. rewrite Heq.
  destruct Hsame as (Ho & _).
  apply bind_run_Raise. unfold dict_get, bind, get_world.
  now rewrite (py_hashable_same_objs _ _ _ Ho), Hh.
Qed.

Lemma py_getattr_missing (w : world) (m : value) (a : string)
    (dm : gmap string value) :
  members w m = Some dm ->
  dm !! a = None ->
  obj_type w m <> Some TMagicMock ->
  py_getattr m a w = (Raise (AttributeError a), w).
Proof.
  unfold members, obj_type, py_getattr. destruct m as [|s|l]; simpl.
  - intros [= <-] -> _. reflexivity.
  - intros [= <-] -> _. reflexivity.
  - destruct (objs w !! l) as [o|]; simpl; [|discriminate].
    intros [= <-] -> Ht. destruct (o_type o); congruence.
Qed.

Lemma module_names_stop (w : world) (pre post names : list value)
    (m : value) (e : exn) :
  Forall2 (fun m n => module_member w m "__name__" = Some n) pre names ->
  module_to_str m w = (Raise e, w) ->
  mapM module_to_str (pre ++ m :: post) w = (Raise e, w).
Proof.
  intros Hpre Hm. induction Hpre as [|p n pre names Hp _ IH]; simpl.
  - now apply bind_run_Raise.
  - unfold module_to_str at 1.
    rewrite (bind_run_Ok _ _ _ _ _ (py_getattr_member _ _ _ _ Hp)).
    now apply bind_run_Raise.
Qed.

(** X6. A module list with an entry that has no [__name__] (a string given
    in place of a module, for one): [serialize_callable] raises
    [AttributeError] on line 78, for every callable, also one that would be
    found by name. *)
Theorem serialize_module_without_name (c : value)
    (pre post names : list value) (m : value) (dm : gmap string value)
    (w : world) :
  Forall2 (fun m n => module_member w m "__name__" = Some n) pre names ->
  members w m = Some dm ->
  dm !! "__name__" = None ->
  obj_type w m <> Some TMagicMock ->
  Forall (fun m => is_Some (members w m)) post ->
  exists w',
    serialize_callable c (pre ++ m :: post) w
      = (Raise (AttributeError "__name__"), w') /\
    same_interp w w'.
Proof.
  intros Hpre Hm Hname Ht Hpost.
  assert (Hlive : Forall (fun m => is_Some (members w m)) (pre ++ m :: post)).
  { apply Forall_app. split; [now apply (names_live w pre names)|].
    constructor; [eauto|exact Hpost]. }
  destruct (namespace_for_modules_run _ w Hlive)
    as (ns & w1 & Hrun & _ & Hns & Hsame & _).
  exists w1. split; [|exact Hsame]. destruct Hsame as (Ho & _).
  unfold serialize_callable.
  rewrite (bind_run_Ok _ _ _ _ _ Hrun).
  rewrite (bind_run_Ok _ _ _ _ _ (dict_items_run _ _ _ Hns)).
  unfold bind at 1, get_world at 1. cbv beta iota zeta.
  apply bind_run_Raise.
  apply (module_names_stop w1 pre post names).
  - eapply Forall2_impl; [exact Hpre|]. intros x n Hx.
    now rewrite (module_member_same_objs _ _ _ _ Ho).
  - unfold module_to_str. apply (py_getattr_missing w1 m "__name__" dm).
    + now rewrite (members_same_objs _ _ _ Ho).
    + exact Hname.
    + now rewrite (obj_type_same_objs _ _ _ Ho).
Qed.

(** *** Failures and effects of deserializing *)


(** X8. Errors of the executed source. With a source text, the error that
    [exec] raises comes out of [deserialize_callable_in_namespace]; and when
    [exec] returns without binding the record's name in its globals, the
    result is [KeyError]. *)
Theorem deserialize_execution_errors (k s : string) (namespace : loc)
    (w : world) (d : gmap string value) :
  dicts w !! namespace = Some d ->
  let g := fresh (dom (dicts w)) in
  let w1 := set_dicts (insert g d) w in
  (forall e w2,
     exec_sem s g w1 = (Raise e, w2) ->
     deserialize_callable_in_namespace (VStr k) (VStr s) namespace w
       = (Raise e, w2)) /\
  (forall w2 d2,
     exec_sem s g w1 = (Ok tt, w2) ->
     dicts w2 !! g = Some d2 ->
     d2 !! k = None ->
     deserialize_callable_in_namespace (VStr k) (VStr s) namespace w
       = (Raise (KeyError (VStr k)), w2)).
Proof.
  intros Hns g w1.
  destruct (safe_exec_in_copy (VStr s) (VStr k) namespace w d Hns)
    as (_ & _ & E). fold g w1 in E.
  unfold deserialize_callable_in_namespace.
  rewrite bool_decide_eq_false_2 by discriminate. rewrite E. clear E.
  split.
  - intros e w2 Hrun. now apply bind_run_Raise.
  - intros w2 d2 Hrun Hd2 Hk.
    rewrite (bind_run_Ok _ _ w1 w2 tt) by exact Hrun.
    apply bind_run_Raise. rewrite (dict_getitem_run _ _ _ _ Hd2).
    now rewrite Hk.
Qed.

(** X9. A binding that takes no attribute. When the executed source binds
    the name to [None], a string or a builtin function, line 151 raises
    [AttributeError]: the deserialization fails although the name is
    bound. *)
Theorem deserialize_untaggable (k s : string) (namespace : loc)
    (w w2 : world) (d d2 : gmap string value) (f : value) :
  dicts w !! namespace = Some d ->
  exec_sem s (fresh (dom (dicts w)))
    (set_dicts (insert (fresh (dom (dicts w))) d) w) = (Ok tt, w2) ->
  dicts w2 !! fresh (dom (dicts w)) = Some d2 ->
  d2 !! k = Some f ->
  (forall l, f <> VObj l) \/ obj_type w2 f = Some TBuiltin ->
  deserialize_callable_in_namespace (VStr k) (VStr s) namespace w
    = (Raise (AttributeError "h5_source"), w2).
Proof.
  intros Hns Hrun Hd2 Hk Hf.
  destruct (safe_exec_in_copy (VStr s) (VStr k) namespace w d Hns)
    as (_ & _ & E).
  unfold deserialize_callable_in_namespace.
  rewrite bool_decide_eq_false_2 by discriminate. rewrite E. clear E.
  rewrite (bind_run_Ok _ _ _ w2 tt) by exact Hrun.
  rewrite (bind_run_Ok _ _ w2 w2 f).
  2:{ rewrite (dict_getitem_run _ _ _ _ Hd2). now rewrite Hk. }
  apply bind_run_Raise. unfold py_setattr.
  destruct f as [| |l]; try reflexivity.
  destruct Hf as [Hf|Hf]; [now specialize (Hf l)|].
  simpl in Hf. destruct (objs w2 !! l) as [o|]; simpl in Hf; [|discriminate].
  injection Hf as ->. reflexivity.
Qed.


(** *** The validation call *)

(** The list comprehension of line 39: as many new, different mocks as asked
    for, and nothing else changed. *)
Lemma mock_arguments_run {A} (xs : list A) :
  forall w,
  exists args w1,
    mapM (fun _ => MagicMock) xs w = (Ok args, w1) /\
    length args = length xs /\
    dicts w1 = dicts w /\ loadable w1 = loadable w /\
    builtins_import w1 = builtins_import w /\
    (forall l o, objs w !! l = Some o -> objs w1 !! l = Some o) /\
    Forall (fun a => exists l, a = VObj l /\ objs w !! l = None /\
                               objs w1 !! l = Some mock_object) args /\
    NoDup args.
Proof.
  induction xs as [|x xs IH]; intros w.
  - exists [], w. simpl. repeat split; auto; constructor.
  - set (l0 := fresh (dom (objs w))).
    set (w0 := set_objs (insert l0 mock_object) w).
    assert (Hl0 : objs w !! l0 = None) by apply fresh_obj_None.
    destruct (IH w0) as (args & w1 & Hrun & Hlen & Hd & Hl & Hi & Hmono & Hnew & Hnd).
    exists (VObj l0 :: args), w1.
    split.
    { simpl. rewrite (bind_run_Ok _ _ w w0 (VObj l0)) by reflexivity.
      now rewrite (bind_run_Ok _ _ _ _ _ Hrun). }
    split; [simpl; now rewrite Hlen|].
    split; [exact Hd|]. split; [exact Hl|]. split; [exact Hi|].
    split.
    { intros l o Hlo. apply Hmono. simpl.
      rewrite lookup_insert_ne; [exact Hlo|]. intros ->. congruence. }
    split.
    { constructor.
      - exists l0. repeat split; auto. apply Hmono. simpl.
        apply lookup_insert_eq.
      - eapply Forall_impl; [exact Hnew|].
        intros a (l & -> & Hnone & Hmock). exists l. repeat split; auto.
        simpl in Hnone. destruct (decide (l0 = l)) as [->|Hne].
        + now rewrite lookup_insert_eq in Hnone.
        + now rewrite lookup_insert_ne in Hnone. }
    constructor; [|exact Hnd].
    intros Hin. rewrite Forall_forall in Hnew.
    destruct (Hnew _ Hin) as (l & [= <-] & Hnone & _).
    simpl in Hnone. now rewrite lookup_insert_eq in Hnone.
Qed.


(** X12. The exits of [test_callable] before the call. When [getargspec]
    rejects the object its error comes out and nothing has changed; on a
    Python whose major version is neither 2 nor 3 the result is [NameError]
    once the mock arguments are made. In both cases the callable is not
    called. *)
Theorem test_callable_early_exits (c : value) (w : world) :
  (forall e, getargspec_args c w = (Raise e, w) ->
     test_callable c w = (Raise e, w)) /\
  (forall n, version_major <> 2%Z -> version_major <> 3%Z ->
     getargspec_args c w = (Ok n, w) ->
     test_callable c w =
       (Raise (NameError "__builtin__"),
        (mapM (fun _ => MagicMock) (seq 0 n) w).2)).
Proof.
  split.
  - intros e He. unfold test_callable. now apply bind_run_Raise.
  - intros n H2 H3 Hspec.
    destruct (mock_arguments_run (seq 0 n) w) as (args & w1 & Hrun & _).
    unfold test_callable.
    rewrite (bind_run_Ok _ _ _ _ _ Hspec), (bind_run_Ok _ _ _ _ _ Hrun).
    rewrite Hrun. unfold is_py2, is_py3.
    apply Z.eqb_neq in H2, H3. now rewrite H2, H3.
Qed.

(** X13. An import of a module that exists, made during the validation call
    (the hook is the patch's mock around [import_mock], or [import_mock]
    itself after an earlier import): the value handed back is a new mock, an
    object that was not there before and so not the module, and
    [import_mock] itself is left in [builtins.__import__]. *)
Theorem validation_import_returns_mock (name : string) (md : value)
    (w : world) :
  builtins_import w = PatchedMock (ImportMock RealImport) \/
  builtins_import w = ImportMock RealImport ->
  loadable w !! name = Some md ->
  exists l,
    objs w !! l = None /\
    py_import name w =
      (Ok (VObj l),
       set_objs (insert l mock_object)
         (set_builtins_import (ImportMock RealImport) w)).
Proof.
  intros Hhook Hmd. exists (fresh (dom (objs w))).
  split; [apply fresh_obj_None|].
  unfold py_import, bind, get_builtins_import.
  destruct Hhook as [-> | ->]; simpl;
    unfold bind, put_builtins_import, import_module; simpl;
    now rewrite Hmd.
Qed.

(** X14. An import of a module that does not exist, made during the
    validation call: [ImportError] is raised with the real import left in
    [builtins.__import__] (line 57 is not undone on this path).  If the
    callable catches the error, its later imports are real ones: an import of
    a module that exists then returns the module itself. *)
Theorem validation_import_error_unmocks (missing name : string) (md : value)
    (w : world) :
  builtins_import w = PatchedMock (ImportMock RealImport) \/
  builtins_import w = ImportMock RealImport ->
  loadable w !! missing = None ->
  loadable w !! name = Some md ->
  py_import missing w
    = (Raise (ImportError missing), set_builtins_import RealImport w) /\
  py_import name (set_builtins_import RealImport w)
    = (Ok md, set_builtins_import RealImport w).
Proof.
  intros Hhook Hmissing Hmd. split.
  - unfold py_import, bind, get_builtins_import.
    destruct Hhook as [-> | ->]; simpl;
      unfold bind, put_builtins_import, import_module; simpl;
      now rewrite Hmissing.
  - unfold py_import, bind, get_builtins_import. simpl.
    unfold import_module. simpl. now rewrite Hmd.
Qed.

(** *** More on [extract_source] *)

(** X15. [extract_source] never changes the state; it raises what
    [inspect.getsource] raises, and [IndexError] on line 104 when the text is
    empty. *)
Theorem extract_source_errors (c : value) (w : world) :
  (extract_source c w).2 = w /\
  (forall e, inspect_getsource c w = (Raise e, w) ->
     extract_source c w = (Raise e, w)) /\
  (inspect_getsource c w = (Ok EmptyString, w) ->
     extract_source c w = (Raise IndexError, w)).
Proof.
  split; [|split].
  - unfold extract_source, bind.
    pose proof (inspect_getsource_world c w) as Hw.
    destruct (inspect_getsource c w) as [[src|e] w1]; simpl in Hw; subst w1;
      [|reflexivity].
    unfold list_getitem. now destruct (splitlines src !! 0).
  - intros e He. unfold extract_source. now apply bind_run_Raise.
  - intros He. unfold extract_source.
    now rewrite (bind_run_Ok _ _ _ _ _ He).
Qed.

Lemma dedent_keeps_text (k : nat) :
  forall line,
  k <= leading_whitespace line \/
  leading_whitespace line = String.length line ->
  lstrip (string_drop k line) = lstrip line /\
  leading_whitespace (string_drop k line) = leading_whitespace line - k.
Proof.
  induction k as [|k IH]; intros line H.
  - simpl. split; [reflexivity|lia].
  - destruct line as [|ch s]; [simpl; auto|].
    simpl in *. destruct (isspace ch) eqn:E.
    + apply IH. destruct H as [H|H]; [left|right]; lia.
    + destruct H as [H|H]; lia.
Qed.

(** X16. Dedenting keeps the text. When every line either has at least the
    leading white space of the first line, or is white space only,
    [extract_source] removes white space only: every line keeps its text
    after the indentation, and its indentation shrinks by that of the first
    line. *)
Theorem extract_source_keeps_text (c : value) (w : world)
    (src l : string) (rest : list string) :
  inspect_getsource c w = (Ok src, w) ->
  splitlines src = l :: rest ->
  Forall (fun line =>
            leading_whitespace l <= leading_whitespace line \/
            leading_whitespace line = String.length line) rest ->
  exists out_lines,
    extract_source c w = (Ok (join (String LF EmptyString) out_lines), w) /\
    Forall2
      (fun line out =>
         lstrip out = lstrip line /\
         leading_whitespace out
           = leading_whitespace line - leading_whitespace l)
      (l :: rest) out_lines.
Proof.
  intros Hsrc Hlines Hrest.
  exists (map (string_drop (leading_whitespace l)) (l :: rest)).
  split; [now apply extract_source_run with (src := src)|].
  simpl. constructor.
  - apply dedent_keeps_text. now left.
  - clear Hlines. induction Hrest as [|line rest Hline _ IH]; simpl; constructor.
    + now apply dedent_keeps_text.
    + exact IH.
Qed.

(** *** More on namespaces *)

Lemma merge_members_is_Some (w : world) (n : string) (modules : list value) :
  forall acc,
  is_Some (merge_members w modules acc !! n) <->
  is_Some (acc !! n) \/
  Exists (fun m => is_Some (module_member w m n)) modules.
Proof.
  induction modules as [|m modules IH]; intros acc.
  - simpl. split; [now left|]. intros [H|H]; [exact H|]. inversion H.
  - unfold merge_members in *. simpl. rewrite IH.
    rewrite lookup_union_is_Some.
    assert (Hm : is_Some (default ∅ (members w m) !! n)
                 <-> is_Some (module_member w m n)).
    { unfold module_member. destruct (members w m) as [dm|]; simpl.
      - reflexivity.
      - rewrite lookup_empty. split; intros [x Hx]; discriminate. }
    rewrite Hm. rewrite Exists_cons. split.
    + intros [[H|H]|H]; [right; left; exact H|left; exact H|right; right; exact H].
    + intros [H|[H|H]]; [left; right; exact H|left; left; exact H|right; exact H].
Qed.

(** X17. The namespace that [namespace_for_modules] builds is a new
    dictionary whose keys are exactly the names that some module of the list
    defines (none for the empty list); building it changes no object, no
    importable module, not the import hook, and no dictionary that was
    there. *)
Theorem namespace_for_modules_keys (modules : list value) (w : world) :
  Forall (fun m => is_Some (members w m)) modules ->
  exists ns d w',
    namespace_for_modules modules w = (Ok ns, w') /\
    dicts w !! ns = None /\
    dicts w' !! ns = Some d /\
    (forall n, is_Some (d !! n) <->
               Exists (fun m => is_Some (module_member w m n)) modules) /\
    same_interp w w' /\
    (forall r, is_Some (dicts w !! r) -> dicts w' !! r = dicts w !! r).
Proof.
  intros Hlive.
  destruct (namespace_for_modules_run modules w Hlive)
    as (ns & w' & Hrun & Hnew & Hns & Hsame & Hkeep).
  exists ns, (merge_members w modules ∅), w'.
  repeat (split; [assumption|]). split; [|split; assumption].
  intros n. rewrite merge_members_is_Some, lookup_empty.
  split; [intros [[x Hx]|H]; [discriminate|exact H]|now right].
Qed.



End Embedding.

(** * A concrete interpreter state

    Python 3, two modules [A] and [B] that both define [x], a partial bound
    in [A] and one bound nowhere, a function of [A], a nested function with
    indented source, and one namespace dictionary. *)

Module Sample.

Definition nl : string := String LF EmptyString.

(** Python 3. *)
Definition version : Z := 3.

(** No members on [None] and on strings: they have none that matters. *)
Definition no_members : value -> gmap string value := fun _ => ∅.

Definition module_A : object :=
  {| o_type := TModule;
     o_attrs := {[ "__name__" := VStr "A"; "x" := VStr "a";
                   "inc" := VObj 3; "helper" := VObj 4 ]};
     o_source := None; o_nargs := None |}.

Definition module_B : object :=
  {| o_type := TModule;
     o_attrs := {[ "__name__" := VStr "B"; "x" := VStr "b" ]};
     o_source := None; o_nargs := None |}.

Definition a_partial : object :=
  {| o_type := TPartial; o_attrs := ∅; o_source := None; o_nargs := None |}.

Definition helper : object :=
  {| o_type := TFunction;
     o_attrs := {[ "__name__" := VStr "helper" ]};
     o_source := Some ("def helper(x):" +:+ nl +:+ "    return x" +:+ nl);
     o_nargs := Some 1 |}.

Definition nested : object :=
  {| o_type := TFunction;
     o_attrs := {[ "__name__" := VStr "f" ]};
     o_source := Some ("    def f(x):" +:+ nl +:+ "        return x + 1" +:+ nl
                       +:+ "  # done" +:+ nl +:+ "  " +:+ nl);
     o_nargs := Some 1 |}.

Definition w0 : world :=
  {| objs := {[ 1%positive := module_A; 2%positive := module_B;
                3%positive := a_partial; 4%positive := helper;
                5%positive := a_partial; 6%positive := nested ]};
     dicts := {[ 1%positive := {[ "x" := VStr "a" ]} ]};
     loadable := {[ "A" := VObj 1; "B" := VObj 2 ]};
     builtins_import := RealImport |}.

Definition def_f : string := "def f(x): return x + 1".

Definition rebuilt_f : object :=
  {| o_type := TFunction; o_attrs := {[ "__name__" := VStr "f" ]};
     o_source := None; o_nargs := Some 1 |}.

Definition exec_sample (s : string) (globals : loc) : M unit :=
  if String.eqb s def_f then
    fun w =>
      match dicts w !! globals with
      | Some d =>
          let l := fresh (dom (objs w)) in
          (Ok tt,
           set_dicts (insert globals (<["f" := VObj l]> d))
             (set_objs (insert l rebuilt_f) w))
      | None => (Raise DanglingReference, w)
      end
  else raise (UserError 0).

Definition foreign_sample (tag : nat) (name : string) : M value :=
  raise (UserError 1).

Definition call_sample (c : value) (args : list value) : M value :=
  py_import foreign_sample "A" ;;;
  py_import foreign_sample "nowhere" ;;;
  ret VNone.

End Sample.
Import Sample.

(** * The properties at concrete inputs *)


(** A value that is no value of a mapping is bound to no name of it. *)
Lemma not_among_values (d : gmap string value) (c : value) :
  bool_decide (c ∈ (map_to_list d).*2) = false ->
  forall n, d !! n <> Some c.
Proof.
  intros H n Hn. apply bool_decide_eq_false_1 in H. apply H.
  apply list_elem_of_fmap. exists (n, c). split; [reflexivity|].
  now apply elem_of_map_to_list.
Qed.

(** C5 at the nested function: its source starts with four spaces. *)
Lemma extract_source_dedents_first_line_witness :
  exists l rest,
    splitlines version ("    def f(x):" +:+ nl +:+ "        return x + 1" +:+ nl
                        +:+ "  # done" +:+ nl +:+ "  " +:+ nl) = l :: rest /\
    let k := leading_whitespace version l in
    let out := join nl (map (string_drop k) (l :: rest)) in
    extract_source version (VObj 6) w0 = (Ok out, w0) /\
    first_line version out = string_drop k l /\
    leading_whitespace version (first_line version out) = 0.
Proof.
  apply (extract_source_dedents_first_line version (VObj 6) w0).
  - reflexivity.
  - discriminate.
Defined.

(** C9 at the nested function: the comment line has two leading spaces and
    loses two more characters, the last line has two characters and becomes
    empty. *)
Lemma extract_source_strips_any_characters_witness :
  exists out_lines,
    extract_source version (VObj 6) w0 = (Ok (join nl out_lines), w0) /\
    Forall2
      (fun line out =>
         let removed := string_take (Nat.min 4 (String.length line)) line in
         line = removed +:+ out /\
         String.length removed = Nat.min 4 (String.length line) /\
         (String.length line <= 4 -> out = EmptyString) /\
         (leading_whitespace version line < 4 ->
          leading_whitespace version line < String.length line ->
          exists ch,
            String.get (leading_whitespace version line) removed = Some ch /\
            isspace version ch = false))
      ["    def f(x):"; "        return x + 1"; "  # done"; "  "] out_lines.
Proof.
  apply (extract_source_strips_any_characters version (VObj 6) w0
           ("    def f(x):" +:+ nl +:+ "        return x + 1" +:+ nl
            +:+ "  # done" +:+ nl +:+ "  " +:+ nl)
           "    def f(x):" ["        return x + 1"; "  # done"; "  "]).
  - reflexivity.
  - reflexivity.
Defined.

(** C4 at the modules [A; B]: the namespace has the [x] of [B]. *)
Lemma namespace_for_modules_last_wins_witness :
  exists ns d w',
    namespace_for_modules no_members [VObj 1; VObj 2] w0 = (Ok ns, w') /\
    dicts w' !! ns = Some d /\
    d !! "x" = Some (VStr "b").
Proof.
  destruct (namespace_for_modules_last_wins no_members [VObj 1; VObj 2] w0)
    as (ns & d & w' & Hrun & Hd & _ & _ & HAB).
  - repeat constructor; vm_compute; eauto.
  - exists ns, d, w'. split; [exact Hrun|]. split; [exact Hd|].
    apply (HAB (VObj 1) (VObj 2) "x" (VStr "a") (VStr "b")); reflexivity.
Defined.

(** C8 at the record [("helper", None, ["A"; "B"])]. *)
Lemma deserialize_direct_reference_witness :
  exists ns d w',
    namespace_for_modules no_members [VObj 1; VObj 2] w0 = (Ok ns, w') /\
    dicts w' !! ns = Some d /\
    d !! "helper" = Some (VObj 4) /\
    deserialize_callable no_members exec_sample (VStr "helper") VNone
      [VStr "A"; VStr "B"] w0 = (Ok (VObj 4), w').
Proof.
  destruct (deserialize_direct_reference no_members exec_sample "helper"
              [VStr "A"; VStr "B"] [VObj 1; VObj 2] w0)
    as (ns & d & w' & Hrun & Hd & Hok & _ & _).
  - reflexivity.
  - repeat constructor; vm_compute; eauto.
  - assert (Hhelper : d !! "helper" = Some (VObj 4)).
    { vm_compute in Hrun. injection Hrun as <- <-.
      vm_compute in Hd. injection Hd as <-. reflexivity. }
    exists ns, d, w'. repeat split; auto.
Defined.

(** C7 at a source that binds [f] in its globals. *)
Lemma deserialize_keeps_namespace_witness :
  dicts (deserialize_callable_in_namespace exec_sample (VStr "f") (VStr def_f)
           1%positive w0).2 !! 1%positive
  = Some {[ "x" := VStr "a" ]}.
Proof.
  apply (deserialize_keeps_namespace exec_sample (VStr "f") (VStr def_f)
           1%positive w0).
  - discriminate.
  - reflexivity.
  - intros s g w Hs Hg. unfold exec_sample.
    destruct (String.eqb s def_f); [|reflexivity].
    destruct (dicts w !! g); [|reflexivity].
    simpl. now apply lookup_insert_ne.
Defined.

(** C2, as the code has it, at the namespace of the concrete state. *)
Lemma mock_namespace_keys_witness :
  exists mock_namespace md w',
    mock_namespace_of 1%positive w0 = (Ok mock_namespace, w') /\
    dicts w' !! mock_namespace = Some md /\
    dicts w' !! 1%positive = Some {[ "x" := VStr "a" ]} /\
    dom md = filter (fun k => dunder k = false) (dom ({[ "x" := VStr "a" ]} : gmap string value)) /\
    (forall k v, md !! k = Some v ->
       exists l, v = VObj l /\ objs w0 !! l = None /\
                 objs w' !! l = Some mock_object).
Proof.
  apply (mock_namespace_keys 1%positive w0). reflexivity.
Defined.

(** Two mappings that differ on a key have different key sets. *)
Lemma keys_differ (d md : gmap string value) (k : string) (v : value) :
  d !! k = Some v -> md !! k = None -> dom md <> dom d.
Proof.
  intros Hd Hmd E.
  assert (Hin : k ∈ dom d) by (apply elem_of_dom; eauto).
  rewrite <- E in Hin. apply elem_of_dom in Hin as [x Hx]. congruence.
Qed.

(** C2 as stated fails: the namespace of module [A] has the key [__name__],
    the sandboxed namespace built from it has not, so the key sets differ. *)
Lemma mock_namespace_drops_dunder_keys :
  exists ns mns w1 w2 d md,
    namespace_for_modules no_members [VObj 1] w0 = (Ok ns, w1) /\
    mock_namespace_of ns w1 = (Ok mns, w2) /\
    dicts w2 !! ns = Some d /\
    dicts w2 !! mns = Some md /\
    d !! "__name__" = Some (VStr "A") /\
    md !! "__name__" = None /\
    dom md <> dom d.
Proof.
  eexists _, _, _, _, _, _.
  split; [vm_compute; reflexivity|].
  split; [vm_compute; reflexivity|].
  split; [vm_compute; reflexivity|].
  split; [vm_compute; reflexivity|].
  split; [vm_compute; reflexivity|].
  split; [vm_compute; reflexivity|].
  apply (keys_differ _ _ "__name__" (VStr "A")); vm_compute; reflexivity.
Qed.

(** C3 as stated fails: a partial that is a member of module [A] is
    serialized by name, and a record is returned. *)
Lemma serialize_partial_bound_in_module :
  is_partial w0 (VObj 3) = true /\
  exists w',
    serialize_callable version no_members (VObj 3) [VObj 1] w0 =
      (Ok (mkSerializedCallable (VStr "inc") VNone [VStr "A"]), w').
Proof.
  split; [reflexivity|]. eexists. vm_compute. reflexivity.
Qed.

(** C3, as the code has it, at the partial that is bound nowhere. *)
Lemma serialize_partial_unsupported_witness :
  exists w',
    serialize_callable version no_members (VObj 5) [VObj 1; VObj 2] w0 =
      (Raise (ValueError "Partial function serialization is not yet supported"),
       w') /\
    same_interp w0 w'.
Proof.
  apply (serialize_partial_unsupported version no_members (VObj 5)
           [VObj 1; VObj 2] [VStr "A"; VStr "B"] w0).
  - reflexivity.
  - repeat constructor.
  - apply not_among_values. vm_compute. reflexivity.
  - reflexivity.
Defined.

(** C1 at the failing input: the function rebuilt from
    [("f", "def f(x): return x + 1", ["A"])] carries [h5_source], and
    serializing it again against [A] raises [AttributeError]. *)
Lemma reserialize_attached_source_raises_witness :
  exists f w1,
    deserialize_callable no_members exec_sample (VStr "f") (VStr def_f)
      [VStr "A"] w0 = (Ok f, w1) /\
    module_member no_members w1 f "h5_source" = Some (VStr def_f) /\
    exists w2,
      serialize_callable version no_members f [VObj 1] w1 =
        (Raise (AttributeError "source"), w2).
Proof.
  eexists _, _. split; [vm_compute; reflexivity|].
  eapply (reserialize_attached_source_raises version no_members exec_sample
            (VStr "f") def_f [VStr "A"] w0 _ _ (VStr "f") [VObj 1] [VStr "A"]).
  - vm_compute. reflexivity.
  - repeat constructor.
  - apply not_among_values. vm_compute. reflexivity.
  - vm_compute. reflexivity.
  - vm_compute. reflexivity.
  - vm_compute. reflexivity.
Defined.

(** C10 at an instance made of the function [helper] and the module [A]. *)
Lemma setstate_holds_module_names_witness :
  exists st w1 self' w2,
    SerializableCallable_getstate version no_members exec_sample call_sample
      (SerializableCallable_init (VObj 4) [VObj 1]) w0 = (Ok st, w1) /\
    SerializableCallable_setstate no_members exec_sample
      {| self_callable := None; self_modules := None |} st w1 = (Ok self', w2) /\
    self_modules self' = Some [VStr "A"] /\
    self_modules self' <> Some [VObj 1] /\
    exists w4,
      SerializableCallable_getstate version no_members exec_sample call_sample
        self' w2 = (Raise (AttributeError "__name__"), w4).
Proof.
  eassert (Hget : SerializableCallable_getstate version no_members exec_sample
                    call_sample (SerializableCallable_init (VObj 4) [VObj 1]) w0
                  = (Ok _, _)) by (vm_compute; reflexivity).
  match type of Hget with
  | _ = (Ok ?st, ?w1) =>
      eassert (Hset : SerializableCallable_setstate no_members exec_sample
                        {| self_callable := None; self_modules := None |} st w1
                      = (Ok _, _)) by (vm_compute; reflexivity)
  end.
  destruct (setstate_holds_module_names version no_members exec_sample
              call_sample (VObj 4) [VObj 1] w0 _ _ _ _ _
              ltac:(repeat constructor; exists "A"; reflexivity) Hget Hset)
    as (H1 & H2 & H3 & H4 & H5).
  eexists _, _, _, _.
  split; [exact Hget|].
  split; [exact Hset|].
  split; [exact H1|].
  split; [apply H4; discriminate|].
  apply H5; [reflexivity|discriminate].
Defined.

(** Under the patch, an import of a module that exists leaves [import_mock]
    itself in [builtins.__import__], not the mock that [patch] installed. *)
Example import_mock_leaves_itself_installed :
  builtins_import
    (py_import foreign_sample "A"
       (set_builtins_import (PatchedMock (ImportMock RealImport)) w0)).2
  = ImportMock RealImport.
Proof. reflexivity. Qed.

(** An import of a module that does not exist raises with the real import
    in place. *)
Example import_mock_failed_import :
  exists w',
    py_import foreign_sample "nowhere"
      (set_builtins_import (PatchedMock (ImportMock RealImport)) w0)
    = (Raise (ImportError "nowhere"), w') /\
    builtins_import w' = RealImport.
Proof. eexists. split; reflexivity. Qed.

(** [test_callable] on a callable that imports a missing module: the error
    of the import comes out, and the hook is the one found at entry. *)
Example test_callable_failed_import :
  exists w',
    test_callable version call_sample (VObj 4) w0
    = (Raise (ImportError "nowhere"), w') /\
    builtins_import w' = RealImport.
Proof. eexists. split; vm_compute; reflexivity. Qed.

(** * A larger concrete state

    The state [w0] with four more objects: a function without retrievable
    source, a callable that is not hashable, a builtin function, and a
    function whose source is indented as a whole. *)

Module More.

Definition unsourced : object :=
  {| o_type := TFunction; o_attrs := {[ "__name__" := VStr "g" ]};
     o_source := None; o_nargs := Some 0 |}.

Definition unhashable : object :=
  {| o_type := TOther true false; o_attrs := ∅;
     o_source := None; o_nargs := None |}.

Definition builtin_len : object :=
  {| o_type := TBuiltin; o_attrs := {[ "__name__" := VStr "len" ]};
     o_source := None; o_nargs := None |}.

Definition method_source : string :=
  "    def m(self):" +:+ nl +:+ "        return self" +:+ nl
  +:+ nl +:+ "    # end" +:+ nl.

Definition method : object :=
  {| o_type := TFunction; o_attrs := {[ "__name__" := VStr "m" ]};
     o_source := Some method_source; o_nargs := Some 1 |}.

Definition w1 : world :=
  set_objs (fun objs => <[7%positive := unsourced]>
                       (<[8%positive := unhashable]>
                       (<[9%positive := builtin_len]>
                       (<[10%positive := method]> objs)))) w0.

Definition len_f : string := "f = len".
Definition import_f : string := "from A import helper as f".

(** [exec] for three source texts: a definition of [f], a binding of [f] to
    the builtin [len], and an import of [helper] from [A] under the name
    [f]. *)
Definition exec_more (s : string) (globals : loc) : M unit :=
  if String.eqb s len_f then
    fun w =>
      match dicts w !! globals with
      | Some d => (Ok tt, set_dicts (insert globals (<["f" := VObj 9]> d)) w)
      | None => (Raise DanglingReference, w)
      end
  else if String.eqb s import_f then
    fun w =>
      match dicts w !! globals with
      | Some d => (Ok tt, set_dicts (insert globals (<["f" := VObj 4]> d)) w)
      | None => (Raise DanglingReference, w)
      end
  else exec_sample s globals.

(** The state during the validation call. *)
Definition w_patched : world :=
  set_builtins_import (PatchedMock (ImportMock RealImport)) w0.

End More.
Import More.

(** * The further properties at concrete inputs *)



(** X3 at the function whose source is indented by four spaces. *)
Lemma serialize_extracts_source_witness :
  exists w',
    serialize_callable version no_members (VObj 10) [VObj 1; VObj 2] w1 =
      (Ok (mkSerializedCallable (VStr "m")
             (VStr ("def m(self):" +:+ nl +:+ "    return self" +:+ nl
                    +:+ nl +:+ "# end"))
             [VStr "A"; VStr "B"]), w') /\
    same_interp w1 w'.
Proof.
  apply (serialize_extracts_source version no_members (VObj 10) (VStr "m")
           [VObj 1; VObj 2] [VStr "A"; VStr "B"] w1 TFunction method_source
           "    def m(self):" ["        return self"; ""; "    # end"]).
  - repeat constructor.
  - apply not_among_values. vm_compute. reflexivity.
  - reflexivity.
  - reflexivity.
  - discriminate.
  - discriminate.
  - reflexivity.
  - reflexivity.
  - reflexivity.
  - reflexivity.
Defined.

(** X4 at the function without retrievable source. *)
Lemma serialize_source_unavailable_witness :
  exists w',
    serialize_callable version no_members (VObj 7) [VObj 1; VObj 2] w1
      = (Raise OSError, w').
Proof.
  destruct (serialize_source_unavailable version no_members (VObj 7)
              [VObj 1; VObj 2] [VStr "A"; VStr "B"] w1 TFunction)
    as (Hraise & _).
  - repeat constructor.
  - apply not_among_values. vm_compute. reflexivity.
  - reflexivity.
  - reflexivity.
  - discriminate.
  - discriminate.
  - reflexivity.
  - apply Hraise. reflexivity.
Defined.

(** X5 at the callable that is not hashable. *)
Lemma serialize_unhashable_witness :
  exists w',
    serialize_callable version no_members (VObj 8) [VObj 1; VObj 2] w1
      = (Raise TypeError, w') /\
    same_interp w1 w'.
Proof.
  apply (serialize_unhashable version no_members (VObj 8)
           [VObj 1; VObj 2] [VStr "A"; VStr "B"] w1).
  - repeat constructor.
  - reflexivity.
Defined.

(** X6 at a module list whose second entry is the string ["B"]. *)
Lemma serialize_module_without_name_witness :
  exists w',
    serialize_callable version no_members (VObj 4) [VObj 1; VStr "B"] w0
      = (Raise (AttributeError "__name__"), w') /\
    same_interp w0 w'.
Proof.
  apply (serialize_module_without_name version no_members (VObj 4)
           [VObj 1] [] [VStr "A"] (VStr "B") ∅ w0).
  - repeat constructor.
  - reflexivity.
  - reflexivity.
  - discriminate.
  - constructor.
Defined.


(** X8 at a source that raises, and at a source that binds [f] when the
    record asks for [g]. *)
Lemma deserialize_execution_errors_witness :
  (exists w2,
     deserialize_callable_in_namespace exec_sample (VStr "f") (VStr "boom")
       1%positive w0 = (Raise (UserError 0), w2)) /\
  (exists w2,
     deserialize_callable_in_namespace exec_sample (VStr "g") (VStr def_f)
       1%positive w0 = (Raise (KeyError (VStr "g")), w2)).
Proof.
  split.
  - destruct (deserialize_execution_errors exec_sample "f" "boom" 1%positive
                w0 {[ "x" := VStr "a" ]} eq_refl) as (Hraise & _).
    eexists. apply Hraise. vm_compute. reflexivity.
  - destruct (deserialize_execution_errors exec_sample "g" def_f 1%positive
                w0 {[ "x" := VStr "a" ]} eq_refl) as (_ & Hkey).
    eexists. eapply Hkey.
    + vm_compute. reflexivity.
    + vm_compute. reflexivity.
    + vm_compute. reflexivity.
Defined.

(** X9 at the source [f = len]. *)
Lemma deserialize_untaggable_witness :
  exists w2,
    deserialize_callable_in_namespace exec_more (VStr "f") (VStr len_f)
      1%positive w1 = (Raise (AttributeError "h5_source"), w2).
Proof.
  eexists.
  eapply (deserialize_untaggable exec_more "f" len_f 1%positive w1 _
            {[ "x" := VStr "a" ]} _ (VObj 9)).
  - reflexivity.
  - vm_compute. reflexivity.
  - vm_compute. reflexivity.
  - vm_compute. reflexivity.
  - right. vm_compute. reflexivity.
Defined.



(** X13 at an import of [A] under the patch. *)
Lemma validation_import_returns_mock_witness :
  exists l,
    objs w_patched !! l = None /\
    py_import foreign_sample "A" w_patched =
      (Ok (VObj l),
       set_objs (insert l mock_object)
         (set_builtins_import (ImportMock RealImport) w_patched)).
Proof.
  apply (validation_import_returns_mock foreign_sample "A" (VObj 1) w_patched).
  - left. reflexivity.
  - reflexivity.
Defined.

(** X14 at a failed import followed by an import of [A]. *)
Lemma validation_import_error_unmocks_witness :
  py_import foreign_sample "nowhere" w_patched
    = (Raise (ImportError "nowhere"), set_builtins_import RealImport w_patched) /\
  py_import foreign_sample "A" (set_builtins_import RealImport w_patched)
    = (Ok (VObj 1), set_builtins_import RealImport w_patched).
Proof.
  apply (validation_import_error_unmocks foreign_sample "nowhere" "A" (VObj 1)
           w_patched).
  - left. reflexivity.
  - reflexivity.
  - reflexivity.
Defined.

(** X16 at the source that is indented by four spaces and has an empty
    line. *)
Lemma extract_source_keeps_text_witness :
  exists out_lines,
    extract_source version (VObj 10) w1 = (Ok (join nl out_lines), w1) /\
    Forall2
      (fun line out =>
         lstrip version out = lstrip version line /\
         leading_whitespace version out = leading_whitespace version line - 4)
      ["    def m(self):"; "        return self"; ""; "    # end"] out_lines.
Proof.
  apply (extract_source_keeps_text version (VObj 10) w1 method_source
           "    def m(self):" ["        return self"; ""; "    # end"]).
  - reflexivity.
  - reflexivity.
  - constructor; [left; vm_compute; lia|].
    constructor; [right; reflexivity|].
    constructor; [left; vm_compute; lia|constructor].
Defined.

(** X17 at the modules [A; B]. *)
Lemma namespace_for_modules_keys_witness :
  exists ns d w',
    namespace_for_modules no_members [VObj 1; VObj 2] w0 = (Ok ns, w') /\
    dicts w0 !! ns = None /\
    dicts w' !! ns = Some d /\
    (forall n, is_Some (d !! n) <->
               Exists (fun m => is_Some (module_member no_members w0 m n))
                 [VObj 1; VObj 2]) /\
    same_interp w0 w' /\
    (forall r, is_Some (dicts w0 !! r) -> dicts w' !! r = dicts w0 !! r).
Proof.
  apply (namespace_for_modules_keys no_members [VObj 1; VObj 2] w0).
  repeat constructor; vm_compute; eauto.
Defined.

